(** * ai-code-reviewer: the diff-to-review pipeline

    A shallow embedding of the diff parser ([src/analysis/git.ts]), the file
    filter ([FileFilter] of [src/analysis]), the response normalizer
    ([src/providers/base.ts]) and the review aggregator
    ([src/review/engine.ts]), followed by the properties of the written
    specification that concern them.

    Conventions.
    - A JavaScript string is a [string] of the standard library: a sequence
      of bytes.  Operations whose JavaScript meaning depends on Unicode
      ([trim], [toLowerCase], the regular expression class [.]) are given
      on the ASCII range.
    - A JavaScript number that the pipeline reads or writes is an integer or
      [NaN]: type [number].  Fractions and the loss of precision above 2^53
      are outside the model.
    - [undefined] in an optional field is [None].
    - A thrown exception is a value of type [Thrown]; a function that can
      throw returns [Thrown + A]. *)

From Stdlib Require Import String Ascii ZArith Lia Bool DecimalString.
From Stdlib Require DecimalPos.
From stdpp Require Import base option list.

Open Scope string_scope.
Open Scope Z_scope.

(** ** JavaScript primitives *)

Module JS.

Inductive number := NaN | Num (z : Z).

(** What a [catch] clause receives: an [Error] with its message, or any
    other thrown value. *)
Inductive Thrown := Error (message : string) | NonError.

(** [error instanceof Error ? error.message : "Unknown error"] *)
Definition errorMessage (e : Thrown) : string :=
  match e with
  | Error m => m
  | NonError => "Unknown error"
  end.

Definition LF : ascii := ascii_of_nat 10.
Definition CR : ascii := ascii_of_nat 13.
Definition nl : string := String LF "".

(** [s.startsWith(p)] *)
Definition startsWith (s p : string) : bool := String.prefix p s.

(** [s.substring(n)] *)
Fixpoint substring (n : nat) (s : string) : string :=
  match n, s with
  | O, _ => s
  | S _, "" => ""
  | S k, String _ s' => substring k s'
  end.

(** [s.slice(0, n)] *)
Fixpoint take (n : nat) (s : string) : string :=
  match n, s with
  | O, _ => ""
  | S _, "" => ""
  | S k, String c s' => String c (take k s')
  end.

(** [s.indexOf(p)] *)
Fixpoint indexOf (s p : string) : option nat :=
  if String.prefix p s then Some O
  else match s with
       | "" => None
       | String _ s' => S <$> indexOf s' p
       end.

(** [s.replace(p, r)] for a string pattern [p] and a replacement without
    [$]: the first occurrence only. *)
Definition replace (s p r : string) : string :=
  match indexOf s p with
  | Some i => take i s ++ r ++ substring (i + String.length p) s
  | None => s
  end.

Definition consHead (c : ascii) (l : list string) : list string :=
  match l with
  | [] => [String c ""]
  | x :: xs => String c x :: xs
  end.

(** [s.split(sep)] for a one-character separator. *)
Fixpoint split (sep : ascii) (s : string) : list string :=
  match s with
  | "" => [""]
  | String c s' =>
      if Ascii.eqb c sep then "" :: split sep s'
      else consHead c (split sep s')
  end.

(** [l.join(sep)] *)
Fixpoint join (sep : string) (l : list string) : string :=
  match l with
  | [] => ""
  | [x] => x
  | x :: xs => x ++ sep ++ join sep xs
  end.

(** White space and line terminators of the ASCII range. *)
Definition isWhite (c : ascii) : bool :=
  let n := nat_of_ascii c in
  ((9 <=? n)%nat && (n <=? 13)%nat) || (n =? 32)%nat.

Definition isLineTerminator (c : ascii) : bool :=
  Ascii.eqb c LF || Ascii.eqb c CR.

Fixpoint trimStart (s : string) : string :=
  match s with
  | "" => ""
  | String c s' => if isWhite c then trimStart s' else s
  end.

Fixpoint trimEnd (s : string) : string :=
  match s with
  | "" => ""
  | String c s' =>
      match trimEnd s' with
      | "" => if isWhite c then "" else String c ""
      | t => String c t
      end
  end.

(** [s.trim()] *)
Definition trim (s : string) : string := trimEnd (trimStart s).

Definition lowerChar (c : ascii) : ascii :=
  let n := nat_of_ascii c in
  if (65 <=? n)%nat && (n <=? 90)%nat then ascii_of_nat (n + 32) else c.

(** [s.toLowerCase()] *)
Fixpoint toLowerCase (s : string) : string :=
  match s with
  | "" => ""
  | String c s' => String (lowerChar c) (toLowerCase s')
  end.

(** [a.includes(x)] on an array of strings. *)
Definition includes (a : list string) (x : string) : bool :=
  existsb (String.eqb x) a.

(** The value of a digit in the given radix. *)
Definition digitValue (radix : Z) (c : ascii) : option Z :=
  let n := Z.of_nat (nat_of_ascii c) in
  let v := if (48 <=? n) && (n <=? 57) then Some (n - 48)
           else if (97 <=? n) && (n <=? 122) then Some (n - 87)
           else if (65 <=? n) && (n <=? 90) then Some (n - 55)
           else None in
  match v with
  | Some d => if d <? radix then Some d else None
  | None => None
  end.

(** The longest prefix of digits, read left to right onto [acc]; [None]
    when no digit was read. *)
Fixpoint readDigits (radix : Z) (s : string) (acc : option Z) : option Z :=
  match s with
  | "" => acc
  | String c s' =>
      match digitValue radix c with
      | Some d => readDigits radix s' (Some (radix * default 0 acc + d))
      | None => acc
      end
  end.

(** [parseInt(s)] without a radix argument. *)
Definition parseInt (s : string) : number :=
  let s1 := trimStart s in
  let '(sign, s2) :=
    match s1 with
    | String "-" r => (-1, r)
    | String "+" r => (1, r)
    | _ => (1, s1)
    end in
  let '(radix, s3) :=
    if String.prefix "0x" s2 || String.prefix "0X" s2
    then (16, substring 2 s2) else (10, s2) in
  match readDigits radix s3 None with
  | Some v => Num (sign * v)
  | None => NaN
  end.

Definition isDigit (c : ascii) : bool :=
  let n := nat_of_ascii c in (48 <=? n)%nat && (n <=? 57)%nat.

(** The longest prefix of decimal digits and what follows it: the greedy
    match of [\d*]. *)
Fixpoint spanDigits (s : string) : string * string :=
  match s with
  | "" => ("", "")
  | String c s' =>
      if isDigit c
      then let '(d, r) := spanDigits s' in (String c d, r)
      else ("", s)
  end.

(** The literal [p] at the head of [s]; what follows it. *)
Definition expect (p s : string) : option string :=
  if String.prefix p s then Some (substring (String.length p) s) else None.

(** [x || d] on an optional string: the empty string is falsy. *)
Definition orElse (x : option string) (d : string) : string :=
  match x with
  | Some "" | None => d
  | Some s => s
  end.

(** Truthiness of an optional string. *)
Definition truthy (x : option string) : bool :=
  match x with
  | Some "" | None => false
  | Some _ => true
  end.

Definition dq : string := String (ascii_of_nat 34) "".

(** A string given by its bytes. *)
Definition bytes (l : list nat) : string :=
  string_of_list_ascii (map ascii_of_nat l).

(** [o[k]] on an object literal [o], given as its own properties in
    order: [None] is [undefined]. Keys that would reach a member
    inherited from [Object.prototype] are outside the model. *)
Fixpoint get {A} (o : list (string * A)) (k : string) : option A :=
  match o with
  | [] => None
  | (k', v) :: o' => if String.eqb k k' then Some v else get o' k
  end.

(** [a.includes(x)] where [x] may be [undefined]. *)
Definition includesO (a : list string) (x : option string) : bool :=
  match x with
  | Some s => includes a s
  | None => false
  end.

(** Arithmetic on numbers: [NaN] is absorbing. *)
Definition plus (a b : number) : number :=
  match a, b with
  | Num x, Num y => Num (x + y)
  | _, _ => NaN
  end.

(** [Math.max(a, b)] and [Math.min(a, b)] *)
Definition Math_max (a b : number) : number :=
  match a, b with
  | Num x, Num y => Num (Z.max x y)
  | _, _ => NaN
  end.

Definition Math_min (a b : number) : number :=
  match a, b with
  | Num x, Num y => Num (Z.min x y)
  | _, _ => NaN
  end.

(** [a >= b] where either side may be [undefined]: a comparison with
    [undefined] is false. *)
Definition geq (a b : option Z) : bool :=
  match a, b with
  | Some x, Some y => y <=? x
  | _, _ => false
  end.

(** A number inside a template literal. *)
Definition numberToString (n : number) : string :=
  match n with
  | NaN => "NaN"
  | Num z => NilZero.string_of_int (Z.to_int z)
  end.

(** [try { body } catch (error) { handler(error) }] *)
Definition tryCatch {A} (body : Thrown + A) (handler : Thrown -> Thrown + A)
  : Thrown + A :=
  match body with
  | inl e => handler e
  | inr a => inr a
  end.

(** Sequencing of a computation that can throw. *)
Definition bindT {A B} (m : Thrown + A) (k : A -> Thrown + B) : Thrown + B :=
  match m with
  | inl e => inl e
  | inr a => k a
  end.

End JS.

Import JS.

(** ** The data model ([src/types.ts]) *)

Module Hunk.
Record GitHunk := mk {
  oldStart : number;
  oldLines : number;
  newStart : number;
  newLines : number;
  lines : list string
}.
End Hunk.
Abbreviation GitHunk := Hunk.GitHunk.

Module Change.
Record CodeChange := mk {
  file : string;
  additions : list string;
  deletions : list string;
  context : list string;
  hunks : list GitHunk
}.
End Change.
Abbreviation CodeChange := Change.CodeChange.

(** A comment as it travels through the pipeline.  The declared type has
    every field but [suggestion] required; a comment decoded from a
    provider's answer, or under construction in the line scanner, may lack
    any of them, and the aggregator tests them at run time. *)
Module Comment.
Record ReviewComment := mk {
  file : option string;
  line : option number;
  message : option string;
  severity : option string;
  category : option string;
  suggestion : option string
}.

(** The empty object [{}]. *)
Definition empty : ReviewComment := mk None None None None None None.
End Comment.
Abbreviation ReviewComment := Comment.ReviewComment.

(** The fields of the configuration the pipeline reads. [temperature] is
    a fraction and is left out. *)
Module Config.
Record ReviewConfig := mk {
  aiProvider : string;
  model : option string;
  maxTokens : option number;
  codingStandardsPath : option string;
  reviewPromptPath : option string;
  ignorePatterns : option (list string);
  severityThreshold : option string;
  autoApprove : option bool;
  requireApprovalFor : option (list string)
}.
End Config.
Abbreviation ReviewConfig := Config.ReviewConfig.

Module Result.
Record ReviewResult := mk {
  comments : list ReviewComment;
  summary : string;
  approved : bool;
  score : number;
  categories : list (string * Z)
}.
End Result.
Abbreviation ReviewResult := Result.ReviewResult.

(** The provider interface. [W] is the state of the world outside the
    process (the remote service): a call to [review] reads and changes
    it, and returns the comments or throws. *)
Module AI.
Record AIProvider (W : Type) := mk {
  name : string;
  review : string -> string -> ReviewConfig -> W ->
           (Thrown + list ReviewComment) * W
}.
Arguments mk {W}.
Arguments name {W}.
Arguments review {W}.
End AI.
Abbreviation AIProvider := AI.AIProvider.

(** ** The diff parser ([GitAnalyzer.parseDiff]) *)

Module Git.

(** [/a\/(.+) b\/(.+)/] on the header line.  [.] is any character but a
    line terminator. *)
Definition dot (c : ascii) : bool := negb (isLineTerminator c).

Fixpoint spanDot (s : string) : string * string :=
  match s with
  | "" => ("", "")
  | String c s' =>
      if dot c
      then let '(d, r) := spanDot s' in (String c d, r)
      else ("", s)
  end.

(** [(.+) b\/(.+)] from the head of [s]: the groups, or [None]. The
    first group is greedy: a longer one is tried before it is closed at
    the character at hand. *)
Fixpoint pathGroups (s : string) : option (string * string) :=
  match s with
  | "" => None
  | String c s' =>
      if dot c then
        match pathGroups s' with
        | Some (g1, g2) => Some (String c g1, g2)
        | None =>
            match expect " b/" s' with
            | Some r =>
                match spanDot r with
                | ("", _) => None
                | (g2, _) => Some (String c "", g2)
                end
            | None => None
            end
        end
      else None
  end.

(** [headerLine.match(/a\/(.+) b\/(.+)/)]: the leftmost match. *)
Fixpoint fileMatch (s : string) : option (string * string) :=
  match
    match expect "a/" s with
    | Some r => pathGroups r
    | None => None
    end
  with
  | Some m => Some m
  | None =>
      match s with
      | "" => None
      | String _ s' => fileMatch s'
      end
  end.

(** [(?:,(\d+))?] at the head of [s]: the group when it takes part, and
    what follows. *)
Definition optCount (s : string) : option string * string :=
  match s with
  | String "," s' =>
      match spanDigits s' with
      | ("", _) => (None, s)
      | (d, r) => (Some d, r)
      end
  | _ => (None, s)
  end.

(** [@@ -(\d+)(?:,(\d+))? \+(\d+)(?:,(\d+))? @@] at the head of [s]. *)
Definition hunkHeaderAt (s : string)
  : option (string * option string * string * option string) :=
  r1 ← expect "@@ -" s;
  let '(g1, r2) := spanDigits r1 in
  if String.eqb g1 "" then None else
  let '(g2, r3) := optCount r2 in
  r4 ← expect " +" r3;
  let '(g3, r5) := spanDigits r4 in
  if String.eqb g3 "" then None else
  let '(g4, r6) := optCount r5 in
  _ ← expect " @@" r6;
  Some (g1, g2, g3, g4).

(** [line.match(/@@ -(\d+)(?:,(\d+))? \+(\d+)(?:,(\d+))? @@/)]: the
    leftmost match anywhere in the line. *)
Fixpoint hunkMatch (s : string)
  : option (string * option string * string * option string) :=
  match hunkHeaderAt s with
  | Some m => Some m
  | None =>
      match s with
      | "" => None
      | String _ s' => hunkMatch s'
      end
  end.

(** The hunk object built from a match. *)
Definition newHunk (m : string * option string * string * option string)
  : GitHunk :=
  let '(g1, g2, g3, g4) := m in
  Hunk.mk (parseInt g1) (parseInt (orElse g2 "1"))
          (parseInt g3) (parseInt (orElse g4 "1")) [].

(** The state of the scan of one file block.  Hunk objects live in
    [heap] and are named by their index: [hunks] and [currentHunk] hold
    references, so that a hunk pushed to [hunks] and still current is
    one object. *)
Record Scan := mkScan {
  additions : list string;
  deletions : list string;
  context : list string;
  hunks : list nat;
  heap : list GitHunk;
  currentHunk : option nat;
  inHunk : bool
}.

Definition initScan : Scan := mkScan [] [] [] [] [] None false.

(** [if (currentHunk) change.hunks.push(currentHunk)] *)
Definition pushCurrent (st : Scan) : Scan :=
  match currentHunk st with
  | Some h =>
      mkScan (additions st) (deletions st) (context st)
             (hunks st ++ [h]) (heap st) (currentHunk st) (inHunk st)
  | None => st
  end.

(** [currentHunk.lines.push(line)] *)
Definition pushLine (line : string) (h : GitHunk) : GitHunk :=
  Hunk.mk (Hunk.oldStart h) (Hunk.oldLines h)
          (Hunk.newStart h) (Hunk.newLines h) (Hunk.lines h ++ [line]).

(** The body of the loop over the lines of a block. *)
Definition scanLine (st : Scan) (line : string) : Scan :=
  if startsWith line "@@" then
    let st1 := pushCurrent st in
    match hunkMatch line with
    | Some m =>
        mkScan (additions st1) (deletions st1) (context st1) (hunks st1)
               (heap st1 ++ [newHunk m])
               (Some (length (heap st1))) true
    | None => st1
    end
  else
    match inHunk st, currentHunk st with
    | true, Some h =>
        let heap' := alter (pushLine line) h (heap st) in
        if startsWith line "+" && negb (startsWith line "+++") then
          mkScan (additions st ++ [substring 1 line]) (deletions st)
                 (context st) (hunks st) heap' (currentHunk st) (inHunk st)
        else if startsWith line "-" && negb (startsWith line "---") then
          mkScan (additions st) (deletions st ++ [substring 1 line])
                 (context st) (hunks st) heap' (currentHunk st) (inHunk st)
        else if startsWith line " " then
          mkScan (additions st) (deletions st)
                 (context st ++ [substring 1 line])
                 (hunks st) heap' (currentHunk st) (inHunk st)
        else
          mkScan (additions st) (deletions st) (context st)
                 (hunks st) heap' (currentHunk st) (inHunk st)
    | _, _ => st
    end.

(** The hunk objects a list of references names. *)
Definition deref (heap : list GitHunk) (refs : list nat) : list GitHunk :=
  omap (fun r => heap !! r) refs.

(** One file block: [None] when it is skipped. *)
Definition parseFile (block : string) : option CodeChange :=
  match split LF block with
  | [] => None
  | headerLine :: rest =>
      match fileMatch headerLine with
      | None => None
      | Some (_, filePath) =>
          let st := pushCurrent (foldl scanLine initScan rest) in
          match hunks st with
          | [] => None
          | _ =>
              Some (Change.mk filePath (additions st) (deletions st)
                              (context st) (deref (heap st) (hunks st)))
          end
      end
  end.

(** [diff.split(/^diff --git/m)]: [skip] characters of a separator are
    still to be dropped, [bol] tells whether a line starts here. The
    head of the result is the piece in progress. *)
Fixpoint splitFiles (skip : nat) (bol : bool) (s : string) : list string :=
  match s with
  | "" => [""]
  | String c s' =>
      match skip with
      | S k => splitFiles k false s'
      | O =>
          if bol && String.prefix "diff --git" s
          then "" :: splitFiles 9 false s'
          else consHead c (splitFiles 0 (isLineTerminator c) s')
      end
  end.

Definition parseDiff (diff : string) : list CodeChange :=
  omap parseFile (tail (splitFiles 0 true diff)).

End Git.

(** ** The file filter ([FileFilter]) *)

Module Filter.

Record FileFilter := mk {
  ignorePatterns : list string;
  includePatterns : list string
}.

Definition getDefaultIgnorePatterns : list string :=
  [ "node_modules/**"; ".git/**"; "dist/**"; "build/**"; "coverage/**";
    ".nyc_output/**"; "vendor/**"; "tmp/**"; "temp/**";
    "*.min.js"; "*.min.css"; "*.map";
    "package-lock.json"; "yarn.lock"; "pnpm-lock.yaml";
    ".env*"; "*.log"; ".DS_Store"; "Thumbs.db";
    "*.pyc"; "__pycache__/**"; ".pytest_cache/**"; ".tox/**";
    "venv/**"; "env/**"; ".venv/**" ].

(** [new FileFilter(ignorePatterns, includePatterns)]: an argument that
    is [undefined] takes its default, the empty array. *)
Definition new (ignorePatterns includePatterns : option (list string))
  : FileFilter :=
  mk (getDefaultIgnorePatterns ++ default [] ignorePatterns)
     (default [] includePatterns).

Definition reviewableExtensions : list string :=
  [ ".js"; ".jsx"; ".ts"; ".tsx";
    ".py"; ".java"; ".cpp"; ".c"; ".h";
    ".cs"; ".go"; ".rs"; ".php";
    ".rb"; ".swift"; ".kt"; ".scala";
    ".sql"; ".sh"; ".bash";
    ".json"; ".yaml"; ".yml";
    ".md"; ".mdx" ].

Definition languageMap : list (string * string) :=
  [ (".js", "javascript"); (".jsx", "javascript");
    (".ts", "typescript"); (".tsx", "typescript");
    (".py", "python"); (".java", "java"); (".cpp", "cpp");
    (".c", "c"); (".h", "c"); (".cs", "csharp"); (".go", "go");
    (".rs", "rust"); (".php", "php"); (".rb", "ruby");
    (".swift", "swift"); (".kt", "kotlin"); (".scala", "scala");
    (".sql", "sql"); (".sh", "bash"); (".bash", "bash");
    (".json", "json"); (".yaml", "yaml"); (".yml", "yaml");
    (".md", "markdown"); (".mdx", "markdown") ].

Section WithLibraries.

(** The two library functions of the filter:
    [minimatch path pattern] is [minimatch(path, pattern, { dot: true })]
    of the minimatch package and [extname] is [path.extname] of Node. *)
Variable minimatch : string -> string -> bool.
Variable extname : string -> string.

(** Some glob of the list matches the path. *)
Definition matchesAny (filePath : string) (globs : list string) : Prop :=
  exists g, In g globs /\ minimatch filePath g = true.

Definition isIgnored (f : FileFilter) (filePath : string) : bool :=
  existsb (fun pattern => minimatch filePath pattern) (ignorePatterns f).

Definition isIncluded (f : FileFilter) (filePath : string) : bool :=
  existsb (fun pattern => minimatch filePath pattern) (includePatterns f).

Definition isReviewableFile (filePath : string) : bool :=
  let ext := toLowerCase (extname filePath) in
  includes reviewableExtensions ext.

Definition shouldReview (f : FileFilter) (filePath : string) : bool :=
  if isIgnored f filePath then false
  else if (0 <? length (includePatterns f))%nat then isIncluded f filePath
  else isReviewableFile filePath.

Definition getReviewableFiles (f : FileFilter) (files : list string)
  : list string :=
  List.filter (fun file => shouldReview f file) files.

(** [languageMap[ext] || 'text'] *)
Definition getLanguage (filePath : string) : string :=
  let ext := toLowerCase (extname filePath) in
  orElse (get languageMap ext) "text".

End WithLibraries.

(** *** Reference library functions

    A matcher for the globs the filter is given by default (literal
    characters, [?], [*] inside a path segment, [**] as a whole segment,
    hidden files matched as any other), and the extension of a POSIX
    path.  They instantiate the two library functions where a concrete
    filter is run. *)

Fixpoint wild (p : string) : string -> bool :=
  match p with
  | "" => fun s => String.eqb s ""
  | String "*" p' =>
      fix star (s : string) : bool :=
        wild p' s || match s with
                     | "" => false
                     | String _ s' => star s'
                     end
  | String "?" p' =>
      fun s => match s with
               | "" => false
               | String _ s' => wild p' s'
               end
  | String c p' =>
      fun s => match s with
               | "" => false
               | String d s' => Ascii.eqb c d && wild p' s'
               end
  end.

Fixpoint globSegments (ps : list string) : list string -> bool :=
  match ps with
  | [] => fun ss => match ss with [] => true | _ => false end
  | p :: ps' =>
      if String.eqb p "**" then
        fix globstar (ss : list string) : bool :=
          globSegments ps' ss || match ss with
                                 | [] => false
                                 | _ :: ss' => globstar ss'
                                 end
      else
        fun ss => match ss with
                  | [] => false
                  | s :: ss' => wild p s && globSegments ps' ss'
                  end
  end.

Definition globMatch (path pattern : string) : bool :=
  globSegments (split "/" pattern) (split "/" path).

(** The index of the last [.] of [s], counted from [i]. *)
Fixpoint lastDot (i : nat) (s : string) : option nat :=
  match s with
  | "" => None
  | String c s' =>
      match lastDot (S i) s' with
      | Some j => Some j
      | None => if Ascii.eqb c "." then Some i else None
      end
  end.

Definition posixExtname (path : string) : string :=
  let segments :=
    List.filter (fun s => negb (String.eqb s "")) (split "/" path) in
  let base := List.last segments "" in
  match lastDot 0 base with
  | None | Some O => ""
  | Some i => if String.eqb base ".." then "" else substring i base
  end.

End Filter.

(** ** The response normalizer ([BaseAIProvider]) *)

Module Provider.

(** The text the regular expression is built from. *)
Definition fenceOpen : string := "```json" ++ nl.
Definition fenceClose : string := nl ++ "```".

(** [response.match(/```json\n([\s\S]*?)\n```/)]: the captured group. The
    match starts at the first opening fence and, the group being lazy,
    ends at the first closing fence after it. *)
Definition jsonMatch (response : string) : option string :=
  i ← indexOf response fenceOpen;
  let rest := substring (i + String.length fenceOpen) response in
  j ← indexOf rest fenceClose;
  Some (take j rest).

(** The value of the text after a field prefix. *)
Definition field (line prefix : string) : string :=
  trim (replace line prefix "").

(** The state of the line scanner. *)
Record Scanner := mkScanner {
  comments : list ReviewComment;
  currentComment : ReviewComment
}.

Definition scan (st : Scanner) (line : string) : Scanner :=
  let cur := currentComment st in
  let set c := mkScanner (comments st) c in
  if startsWith line "File:" then
    mkScanner
      (if truthy (Comment.file cur) then comments st ++ [cur]
       else comments st)
      (Comment.mk (Some (field line "File:")) None None None None None)
  else if startsWith line "Line:" then
    set (Comment.mk (Comment.file cur) (Some (parseInt (field line "Line:")))
           (Comment.message cur) (Comment.severity cur)
           (Comment.category cur) (Comment.suggestion cur))
  else if startsWith line "Severity:" then
    let severity := toLowerCase (field line "Severity:") in
    set (Comment.mk (Comment.file cur) (Comment.line cur)
           (Comment.message cur)
           (Some (if includes ["info"; "warning"; "error"] severity
                  then severity else "warning"))
           (Comment.category cur) (Comment.suggestion cur))
  else if startsWith line "Category:" then
    set (Comment.mk (Comment.file cur) (Comment.line cur)
           (Comment.message cur) (Comment.severity cur)
           (Some (field line "Category:")) (Comment.suggestion cur))
  else if startsWith line "Message:" then
    set (Comment.mk (Comment.file cur) (Comment.line cur)
           (Some (field line "Message:")) (Comment.severity cur)
           (Comment.category cur) (Comment.suggestion cur))
  else if startsWith line "Suggestion:" then
    set (Comment.mk (Comment.file cur) (Comment.line cur)
           (Comment.message cur) (Comment.severity cur)
           (Comment.category cur) (Some (field line "Suggestion:")))
  else st.

Definition parseTextResponse (response : string) : list ReviewComment :=
  let st := foldl scan (mkScanner [] Comment.empty) (split LF response) in
  let cur := currentComment st in
  if truthy (Comment.file cur) && truthy (Comment.message cur)
  then comments st ++ [cur]
  else comments st.

Section WithJSON.

(** [JSON.parse]: the decoded value, which the normalizer returns as
    an array of comments without looking at it, or the [SyntaxError]
    thrown on a text that is not JSON. *)
Variable JSON_parse : string -> Thrown + list ReviewComment.

Definition parseReviewResponse (response : string)
  : Thrown + list ReviewComment :=
  tryCatch
    (match jsonMatch response with
     | Some group => JSON_parse group
     | None =>
         let directJson := trim response in
         if startsWith directJson "[" || startsWith directJson "{"
         then JSON_parse directJson
         else inr (parseTextResponse response)
     end)
    (fun _ => inr (parseTextResponse response)).

End WithJSON.

End Provider.

(** ** The review aggregator ([ReviewEngine]) *)

Module Engine.

Definition severities : list string := ["info"; "warning"; "error"].

Definition categoryNames : list string :=
  [ "code-quality"; "security"; "performance"; "maintainability";
    "style"; "testing"; "documentation" ].

Definition isValidComment (comment : ReviewComment) : bool :=
  truthy (Comment.message comment) &&
  truthy (Comment.severity comment) &&
  includesO severities (Comment.severity comment) &&
  truthy (Comment.category comment) &&
  includesO categoryNames (Comment.category comment).

Definition severityOrder : list (string * Z) :=
  [("info", 1); ("warning", 2); ("error", 3)].

Definition thresholdOrder : list (string * Z) :=
  [("low", 1); ("medium", 2); ("high", 3)].

Definition meetsSeverityThreshold (config : ReviewConfig)
  (comment : ReviewComment) : bool :=
  let threshold := orElse (Config.severityThreshold config) "low" in
  geq (Comment.severity comment ≫= get severityOrder)
      (get thresholdOrder threshold).

(** [{ ...comment, file: comment.file || filePath }] *)
Definition stamp (filePath : string) (comment : ReviewComment)
  : ReviewComment :=
  Comment.mk (Some (orElse (Comment.file comment) filePath))
    (Comment.line comment) (Comment.message comment)
    (Comment.severity comment) (Comment.category comment)
    (Comment.suggestion comment).

Definition validateAndFilterComments (config : ReviewConfig)
  (comments : list ReviewComment) (filePath : string)
  : list ReviewComment :=
  map (stamp filePath)
    (List.filter (meetsSeverityThreshold config)
       (List.filter isValidComment comments)).

(** [categories[k] = (categories[k] || 0) + 1]; the key of a comment
    without category is the string [undefined]. *)
Definition bump (categories : list (string * Z)) (k : string)
  : list (string * Z) :=
  match get categories k with
  | Some _ =>
      map (fun kv => if String.eqb (fst kv) k then (fst kv, snd kv + 1) else kv)
          categories
  | None => categories ++ [(k, 1)]
  end.

Definition noCategories : list (string * Z) :=
  map (fun k => (k, 0)) categoryNames.

Definition categorizeComments (comments : list ReviewComment)
  : list (string * Z) :=
  foldl (fun categories comment =>
           bump categories (default "undefined" (Comment.category comment)))
        noCategories comments.

Definition weights : list (string * Z) :=
  [("error", -10); ("warning", -5); ("info", -1)].

(** [weights[comment.severity]] as an operand of [+]. *)
Definition weight (comment : ReviewComment) : number :=
  match Comment.severity comment ≫= get weights with
  | Some w => Num w
  | None => NaN
  end.

Definition calculateScore (comments : list ReviewComment) : number :=
  if (length comments =? 0)%nat then Num 100 else
  let penalty :=
    foldl (fun sum comment => plus sum (weight comment)) (Num 0) comments in
  Math_max (Num 0) (Math_min (Num 100) (plus (Num 100) penalty)).

(** [this.config.requireApprovalFor?.includes(comment.severity)], as the
    test of a filter: [undefined] is falsy. *)
Definition isBlocking (config : ReviewConfig) (comment : ReviewComment)
  : bool :=
  match Config.requireApprovalFor config with
  | Some l => includesO l (Comment.severity comment)
  | None => false
  end.

Definition shouldApprove (config : ReviewConfig)
  (comments : list ReviewComment) : bool :=
  if default false (Config.autoApprove config) && (length comments =? 0)%nat
  then true
  else
    let blockingIssues := List.filter (isBlocking config) comments in
    (length blockingIssues =? 0)%nat.

(** The leading glyphs of the summary lines, byte for byte as they stand
    in the source file. *)
Definition glyphOk : string := bytes [195; 162; 197; 147; 226; 128; 166]%nat.
Definition glyphRobot : string :=
  bytes [195; 176; 197; 184; 194; 164; 226; 128; 147]%nat.
Definition glyphError : string :=
  bytes [195; 176; 197; 184; 197; 161; 194; 168]%nat.
Definition glyphWarning : string :=
  bytes [195; 162; 197; 161; 194; 160; 195; 175; 194; 184]%nat.
Definition glyphInfo : string :=
  bytes [195; 162; 226; 128; 158; 194; 185; 195; 175; 194; 184]%nat.

Definition countSeverity (s : string) (comments : list ReviewComment) : nat :=
  length (List.filter
            (fun c => match Comment.severity c with
                      | Some s' => String.eqb s' s
                      | None => false
                      end) comments).

Definition showCount (n : nat) : string := numberToString (Num (Z.of_nat n)).

(** [sort(([, a], [, b]) => b - a)]: the sort is stable. *)
Fixpoint insertDesc (x : string * Z) (l : list (string * Z))
  : list (string * Z) :=
  match l with
  | [] => [x]
  | y :: l' => if snd y <? snd x then x :: l else y :: insertDesc x l'
  end.

Definition sortDesc (l : list (string * Z)) : list (string * Z) :=
  foldl (fun acc x => insertDesc x acc) [] l.

Definition generateSummary (comments : list ReviewComment) (score : number)
  : string :=
  if (length comments =? 0)%nat
  then glyphOk ++ " No issues found. Code looks good!"
  else
    let errorCount := countSeverity "error" comments in
    let warningCount := countSeverity "warning" comments in
    let infoCount := countSeverity "info" comments in
    let s0 := glyphRobot ++ " AI Code Review Summary (Score: "
              ++ numberToString score ++ "/100)" ++ nl ++ nl in
    let s1 := if (0 <? errorCount)%nat
              then s0 ++ glyphError ++ " " ++ showCount errorCount
                   ++ " error(s) found" ++ nl
              else s0 in
    let s2 := if (0 <? warningCount)%nat
              then s1 ++ glyphWarning ++ " " ++ showCount warningCount
                   ++ " warning(s) found" ++ nl
              else s1 in
    let s3 := if (0 <? infoCount)%nat
              then s2 ++ glyphInfo ++ " " ++ showCount infoCount
                   ++ " info item(s) found" ++ nl
              else s2 in
    let topCategories :=
      map fst
        (firstn 3
           (sortDesc
              (List.filter (fun kv => 0 <? snd kv)
                 (categorizeComments comments)))) in
    if (0 <? length topCategories)%nat
    then s3 ++ nl ++ "Main areas of concern: " ++ join ", " topCategories
    else s3.

Definition buildResult (config : ReviewConfig)
  (comments : list ReviewComment) : ReviewResult :=
  let categories := categorizeComments comments in
  let score := calculateScore comments in
  let approved := shouldApprove config comments in
  let summary := generateSummary comments score in
  Result.mk comments summary approved score categories.

Definition createEmptyResult (message : string) : ReviewResult :=
  Result.mk [] message true (Num 100)
    [ ("code-quality", 0); ("security", 0); ("performance", 0);
      ("maintainability", 0); ("style", 0); ("testing", 0);
      ("documentation", 0) ].

Definition getDefaultPrompt : string :=
  join nl
    [ "You are an expert code reviewer. Review the provided code changes and identify issues.";
      "";
      "Focus on:";
      "- Code quality and best practices";
      "- Security vulnerabilities";
      "- Performance issues";
      "- Maintainability concerns";
      "- Style consistency";
      "- Testing needs";
      "- Documentation";
      "";
      "Return feedback as JSON array with this structure:";
      "[";
      "  {";
      "    " ++ dq ++ "file" ++ dq ++ ": " ++ dq ++ "path/to/file" ++ dq ++ ",";
      "    " ++ dq ++ "line" ++ dq ++ ": 10,";
      "    " ++ dq ++ "message" ++ dq ++ ": " ++ dq ++ "Issue description" ++ dq ++ ",";
      "    " ++ dq ++ "severity" ++ dq ++ ": " ++ dq ++ "error|warning|info" ++ dq ++ ",";
      "    " ++ dq ++ "category" ++ dq ++ ": " ++ dq ++ "code-quality|security|performance|maintainability|style|testing|documentation" ++ dq ++ ",";
      "    " ++ dq ++ "suggestion" ++ dq ++ ": " ++ dq ++ "Optional improvement suggestion" ++ dq;
      "  }";
      "]" ].

(** [reviewPrompt || this.getDefaultPrompt()], then the standards. *)
Definition buildPrompt (reviewPrompt codingStandards : option string)
  : string :=
  let prompt := orElse reviewPrompt getDefaultPrompt in
  if truthy codingStandards
  then prompt ++ nl ++ nl ++ "Coding Standards to follow:" ++ nl
       ++ default "" codingStandards
  else prompt.

(** *** Orchestration *)

(** What the process finds around it: the repository behind
    [simple-git], the environment variables, the files read by
    [ConfigLoader], and the two provider classes. *)
Record Host (W : Type) := mkHost {
  git_diff : list string -> Thrown + string;
  process_env : string -> option string;
  loadCodingStandards : option string -> option string;
  loadReviewPrompt : option string -> option string;
  OpenAIProvider : string -> AIProvider W;
  AnthropicProvider : string -> AIProvider W
}.
Arguments git_diff {W}.
Arguments process_env {W}.
Arguments loadCodingStandards {W}.
Arguments loadReviewPrompt {W}.
Arguments OpenAIProvider {W}.
Arguments AnthropicProvider {W}.

(** The outcome of a run, the world after it and the provider calls it
    made, each with its code context and prompt, in order. *)
Record Run (W : Type) := mkRun {
  outcome : Thrown + ReviewResult;
  world : W;
  calls : list (string * string)
}.
Arguments mkRun {W}.
Arguments outcome {W}.
Arguments world {W}.
Arguments calls {W}.

(** The state of the loop over the reviewable changes. *)
Record Loop (W : Type) := mkLoop {
  allComments : list ReviewComment;
  loopWorld : W;
  loopCalls : list (string * string)
}.
Arguments mkLoop {W}.
Arguments allComments {W}.
Arguments loopWorld {W}.
Arguments loopCalls {W}.

Section Orchestration.

Context {W : Type}.
Variable minimatch : string -> string -> bool.
Variable extname : string -> string.
Variable host : Host W.
Variable config : ReviewConfig.

(** [GitAnalyzer.getChanges] *)
Definition getChanges (baseSha headSha : string)
  : Thrown + list CodeChange :=
  tryCatch
    (bindT (git_diff host [baseSha ++ "..." ++ headSha; "--no-color"])
           (fun diff => inr (Git.parseDiff diff)))
    (fun error =>
       inl (Error ("Failed to get git changes: " ++ errorMessage error))).

(** [ProviderFactory.getApiKey] *)
Definition getApiKey (provider : string) : Thrown + string :=
  let envKey := if String.eqb provider "openai"
                then "OPENAI_API_KEY" else "ANTHROPIC_API_KEY" in
  let apiKey := process_env host envKey in
  if truthy apiKey then inr (default "" apiKey)
  else inl (Error (envKey ++ " environment variable is required for "
                   ++ provider ++ " provider")).

(** [ProviderFactory.create] *)
Definition create : Thrown + AIProvider W :=
  bindT (getApiKey (Config.aiProvider config)) (fun apiKey =>
    if String.eqb (Config.aiProvider config) "openai"
    then inr (OpenAIProvider host apiKey)
    else if String.eqb (Config.aiProvider config) "anthropic"
    then inr (AnthropicProvider host apiKey)
    else inl (Error ("Unsupported AI provider: "
                     ++ Config.aiProvider config))).

(** The filter the constructor builds. *)
Definition fileFilter : Filter.FileFilter :=
  Filter.new (Config.ignorePatterns config) None.

Definition filterReviewableChanges (changes : list CodeChange)
  : list CodeChange :=
  List.filter
    (fun change =>
       Filter.shouldReview minimatch extname fileFilter (Change.file change))
    changes.

Definition buildCodeContext (change : CodeChange) : string :=
  foldl
    (fun context hunk =>
       (context ++ "@@ -" ++ numberToString (Hunk.oldStart hunk) ++ ","
        ++ numberToString (Hunk.oldLines hunk) ++ " +"
        ++ numberToString (Hunk.newStart hunk) ++ ","
        ++ numberToString (Hunk.newLines hunk) ++ " @@" ++ nl)
       ++ join nl (Hunk.lines hunk) ++ nl ++ nl)
    ("File: " ++ Change.file change ++ nl
     ++ "Language: " ++ Filter.getLanguage extname (Change.file change)
     ++ nl ++ nl)
    (Change.hunks change).

(** The comment that stands for a file whose review failed. *)
Definition failureComment (change : CodeChange) (error : Thrown)
  : ReviewComment :=
  Comment.mk (Some (Change.file change)) (Some (Num 1))
    (Some ("Failed to review file: " ++ errorMessage error))
    (Some "warning") (Some "code-quality") None.

(** The body of the loop over the reviewable changes. *)
Definition reviewOne (provider : AIProvider W)
  (reviewPrompt codingStandards : option string)
  (st : Loop W) (change : CodeChange) : Loop W :=
  let code := buildCodeContext change in
  let prompt := buildPrompt reviewPrompt codingStandards in
  let '(answer, w) := AI.review provider code prompt config (loopWorld st) in
  let calls := (loopCalls st ++ [(code, prompt)])%list in
  match answer with
  | inr comments =>
      let validComments :=
        validateAndFilterComments config comments (Change.file change) in
      mkLoop (allComments st ++ validComments) w calls
  | inl error =>
      mkLoop (allComments st ++ [failureComment change error]) w calls
  end.

Definition reviewFailed (error : Thrown) : Thrown :=
  Error ("Review failed: " ++ errorMessage error).

Definition reviewChanges (baseSha headSha : string) (w : W) : Run W :=
  match getChanges baseSha headSha with
  | inl error => mkRun (inl (reviewFailed error)) w []
  | inr changes =>
      let reviewableChanges := filterReviewableChanges changes in
      if (length reviewableChanges =? 0)%nat
      then mkRun (inr (createEmptyResult "No reviewable changes found")) w []
      else
        let codingStandards :=
          loadCodingStandards host (Config.codingStandardsPath config) in
        let reviewPrompt :=
          loadReviewPrompt host (Config.reviewPromptPath config) in
        match create with
        | inl error => mkRun (inl (reviewFailed error)) w []
        | inr provider =>
            let st :=
              foldl (reviewOne provider reviewPrompt codingStandards)
                    (mkLoop [] w []) reviewableChanges in
            mkRun (inr (buildResult config (allComments st)))
                  (loopWorld st) (loopCalls st)
        end
  end.

End Orchestration.

End Engine.

(** ** Configuration defaults ([ConfigLoader.mergeWithDefaults]) *)

Module Loader.

(** A configuration file as it was read: every field may be missing. *)
Record PartialConfig := mk {
  aiProvider : option string;
  model : option string;
  maxTokens : option number;
  codingStandardsPath : option string;
  reviewPromptPath : option string;
  ignorePatterns : option (list string);
  severityThreshold : option string;
  autoApprove : option bool;
  requireApprovalFor : option (list string)
}.

(** The empty object [{}]: no configuration file was found. *)
Definition empty : PartialConfig :=
  mk None None None None None None None None None.

(** [n || d] on an optional number: zero and [NaN] are falsy. *)
Definition numberOr (n : option number) (d : Z) : number :=
  match n with
  | Some (Num 0) | Some NaN | None => Num d
  | Some (Num z) => Num z
  end.

Definition mergeWithDefaults (config : PartialConfig) : ReviewConfig :=
  Config.mk
    (orElse (aiProvider config) "openai")
    (model config)
    (Some (numberOr (maxTokens config) 2000))
    (codingStandardsPath config)
    (reviewPromptPath config)
    (Some (default [] (ignorePatterns config)))
    (Some (orElse (severityThreshold config) "medium"))
    (Some (default false (autoApprove config)))
    (Some (default ["error"] (requireApprovalFor config))).

End Loader.

(** ** The vocabulary of the specification *)

Module Spec.

(** [clamp(x, lo, hi)] *)
Definition clamp (x lo hi : Z) : Z := Z.max lo (Z.min hi x).

(** weight(error) = -10, weight(warning) = -5, weight(info) = -1 *)
Definition weight (severity : string) : Z :=
  if String.eqb severity "error" then -10
  else if String.eqb severity "warning" then -5
  else if String.eqb severity "info" then -1
  else 0.

Definition weightOf (comment : ReviewComment) : Z :=
  weight (default "" (Comment.severity comment)).

(** The sum of the per-comment weights. *)
Definition penalty (comments : list ReviewComment) : Z :=
  foldr Z.add 0 (map weightOf comments).

(** info = 1, warning = 2, error = 3 *)
Definition severityRank (severity : string) : Z :=
  if String.eqb severity "info" then 1
  else if String.eqb severity "warning" then 2
  else if String.eqb severity "error" then 3
  else 0.

(** low = 1, medium = 2, high = 3 *)
Definition thresholdRank (threshold : string) : Z :=
  if String.eqb threshold "low" then 1
  else if String.eqb threshold "medium" then 2
  else if String.eqb threshold "high" then 3
  else 0.

(** A threshold the configuration type admits. *)
Definition isThreshold (threshold : string) : Prop :=
  threshold = "low" \/ threshold = "medium" \/ threshold = "high".

(** The severities that block approval under a configuration. *)
Definition blockingSeverities (config : ReviewConfig) : list string :=
  default [] (Config.requireApprovalFor config).

(** A comment whose severity appears in the blocking list. *)
Definition blocks (config : ReviewConfig) (comment : ReviewComment) : Prop :=
  exists s, Comment.severity comment = Some s /\ In s (blockingSeverities config).

Definition hasSeverity (s : string) (comment : ReviewComment) : Prop :=
  Comment.severity comment = Some s.

(** A comment whose severity is one of the three known values. *)
Definition knownSeverity (c : ReviewComment) : Prop :=
  exists s, Comment.severity c = Some s /\ In s Engine.severities.

(** The threshold in force: the configured one, [low] without one. *)
Definition thresholdOf (config : ReviewConfig) : string :=
  default "low" (Config.severityThreshold config).

(** The configuration carries no threshold or one its type admits. *)
Definition wellTyped (config : ReviewConfig) : Prop :=
  forall t, Config.severityThreshold config = Some t -> isThreshold t.

(** *** The lexical shape of a JSON text

    Two facts of the JSON grammar: outside a string literal there is no
    backquote, and inside one there is no raw line feed, not even after a
    backslash. Every well-formed JSON text passes [jsonLexical Outside]. *)
Inductive LexMode := Outside | InString | Escaped.

Definition backquote : ascii := ascii_of_nat 96.
Definition quote : ascii := ascii_of_nat 34.
Definition backslash : ascii := ascii_of_nat 92.

Fixpoint jsonLexical (mode : LexMode) (s : string) : bool :=
  match s with
  | "" => true
  | String c s' =>
      match mode with
      | Outside =>
          if Ascii.eqb c backquote then false
          else jsonLexical (if Ascii.eqb c quote then InString else Outside) s'
      | InString =>
          if Ascii.eqb c LF then false
          else jsonLexical (if Ascii.eqb c backslash then Escaped
                            else if Ascii.eqb c quote then Outside
                            else InString) s'
      | Escaped =>
          if Ascii.eqb c LF then false else jsonLexical InString s'
      end
  end.

End Spec.

(** ** Sample inputs *)

Module Samples.

(** Text as the lines it is made of. *)
Definition text (lines : list string) : string := join nl lines.

(** A diff with the two hunk headers of the specification. *)
Definition twoHeaders : string :=
  text [ "diff --git a/src/app.ts b/src/app.ts";
         "index 83db48f..bf269f4 100644";
         "--- a/src/app.ts";
         "+++ b/src/app.ts";
         "@@ -10,5 +12,7 @@";
         "@@ -1 +1 @@" ].

(** A diff whose second hunk header does not have the numeric form. *)
Definition malformedHeader : string :=
  text [ "diff --git a/f.ts b/f.ts";
         "@@ -1,2 +1,2 @@";
         "+one";
         "@@ malformed @@";
         "+two" ].

(** The scan after a first, well-formed hunk header. *)
Definition opened : Git.Scan := Git.scanLine Git.initScan "@@ -1 +1 @@".

(** A comment as a provider returns it. *)
Definition comment (severity category : string) : ReviewComment :=
  Comment.mk (Some "src/app.ts") (Some (Num 3)) (Some "message")
    (Some severity) (Some category) None.

(** The configuration the loader builds without a file, with the given
    threshold in place of the default one. *)
Definition configWith (threshold : option string) : ReviewConfig :=
  Config.mk "openai" None (Some (Num 2000)) None None (Some []) threshold
    (Some false) (Some ["error"]).

(** A decoder that knows one JSON text and rejects every other text. *)
Definition decodeOnly (known : string) (value : list ReviewComment)
  (s : string) : Thrown + list ReviewComment :=
  if String.eqb s known then inr value
  else inl (Error "Unexpected token in JSON").

(** The text of a JSON array with one comment. *)
Definition oneCommentJSON : string :=
  "[{" ++ dq ++ "file" ++ dq ++ ": " ++ dq ++ "src/app.ts" ++ dq ++ ", "
  ++ dq ++ "line" ++ dq ++ ": 3, "
  ++ dq ++ "message" ++ dq ++ ": " ++ dq ++ "message" ++ dq ++ ", "
  ++ dq ++ "severity" ++ dq ++ ": " ++ dq ++ "warning" ++ dq ++ ", "
  ++ dq ++ "category" ++ dq ++ ": " ++ dq ++ "style" ++ dq ++ "}]".

(** A provider whose service is down; the world counts the calls. *)
Definition failing : AIProvider nat :=
  AI.mk "failing"
    (fun _ _ _ calls => (inl (Error "service unavailable"), S calls)).

(** A host whose repository yields the given diff. *)
Definition hostOf (diff : string) : Engine.Host nat :=
  Engine.mkHost nat (fun _ => inr diff) (fun _ => Some "key")
    (fun _ => None) (fun _ => None) (fun _ => failing) (fun _ => failing).

(** A change to an image, which the filter rejects, and one to a source
    file, which it accepts. *)
Definition imageDiff : string :=
  text [ "diff --git a/logo.png b/logo.png"; "@@ -1 +1 @@"; "+x" ].

Definition sourceDiff : string :=
  text [ "diff --git a/src/app.ts b/src/app.ts"; "@@ -1 +1 @@"; "+x" ].

Definition sourceChange : CodeChange :=
  Change.mk "src/app.ts" ["x"] [] []
    [Hunk.mk (Num 1) (Num 1) (Num 1) (Num 1) ["+x"]].

End Samples.

(** The hunk named [h] is open and is the object [hk]. *)
Definition openHunk (st : Git.Scan) (h : nat) (hk : GitHunk) : Prop :=
  Git.inHunk st = true /\ Git.currentHunk st = Some h /\ Git.heap st !! h = Some hk.

(** ** The GitHub client ([GitHubClient]) *)

Module GitHub.

Definition upperChar (c : ascii) : ascii :=
  let n := nat_of_ascii c in
  if (97 <=? n)%nat && (n <=? 122)%nat then ascii_of_nat (n - 32) else c.

(** [s.toUpperCase()], on the ASCII range. *)
Fixpoint toUpperCase (s : string) : string :=
  match s with
  | "" => ""
  | String c s' => String (upperChar c) (toUpperCase s')
  end.

(** An optional string inside a template literal. *)
Definition show (x : option string) : string := default "undefined" x.

(** The glyph that opens every formatted comment, and the text by which
    [getExistingReviewComments] recognises a comment of the tool. *)
Definition glyphRobot : string := bytes [240; 159; 164; 150]%nat.
Definition marker : string := glyphRobot ++ " AI Review".

Definition severityEmoji : list (string * string) :=
  [ ("error", bytes [240; 159; 154; 168]%nat);
    ("warning", bytes [226; 154; 160; 239; 184; 143]%nat);
    ("info", bytes [226; 132; 185; 239; 184; 143]%nat) ].

Definition categoryEmoji : list (string * string) :=
  [ ("code-quality", bytes [240; 159; 143; 151; 239; 184; 143]%nat);
    ("security", bytes [240; 159; 148; 146]%nat);
    ("performance", bytes [226; 154; 161]%nat);
    ("maintainability", bytes [240; 159; 167; 185]%nat);
    ("style", bytes [240; 159; 142; 168]%nat);
    ("testing", bytes [240; 159; 167; 170]%nat);
    ("documentation", bytes [240; 159; 147; 154]%nat) ].

(** [formatComment]. A comment without severity makes
    [comment.severity.toUpperCase()] throw a [TypeError]; its message is
    the engine's. The two tables are read at their own keys only. *)
Definition formatComment (comment : ReviewComment) : Thrown + string :=
  match Comment.severity comment with
  | None =>
      inl (Error "Cannot read properties of undefined (reading 'toUpperCase')")
  | Some severity =>
      let s0 :=
        glyphRobot ++ " **AI Review** " ++ show (get severityEmoji severity)
        ++ " " ++ orElse (Comment.category comment ≫= get categoryEmoji) ""
        ++ nl ++ nl in
      let s1 :=
        s0 ++ "**" ++ toUpperCase severity ++ "**: "
        ++ show (Comment.message comment) ++ nl ++ nl in
      let s2 :=
        if truthy (Comment.suggestion comment)
        then s1 ++ "**Suggestion**:" ++ nl
             ++ default "" (Comment.suggestion comment) ++ nl ++ nl
        else s1 in
      inr (s2 ++ "*Category: " ++ show (Comment.category comment) ++ "*")
  end.

(** The test of the filter in [getExistingReviewComments]:
    [comment.body.includes(marker)]. *)
Definition isOwnComment (body : string) : bool :=
  bool_decide (is_Some (indexOf body marker)).








End GitHub.

(** ** The vocabulary of the further properties *)

Module Shape.

(** A comment whose category is one of the seven known values. *)
Definition knownCategory (c : ReviewComment) : Prop :=
  exists k, Comment.category c = Some k /\ In k Engine.categoryNames.

Definition hasCategory (k : string) (c : ReviewComment) : bool :=
  match Comment.category c with
  | Some k' => String.eqb k' k
  | None => false
  end.

(** The number of comments of a category. *)
Definition countCategory (k : string) (comments : list ReviewComment) : Z :=
  Z.of_nat (length (List.filter (hasCategory k) comments)).

(** The sum of the counts of a histogram. *)
Definition total (categories : list (string * Z)) : Z :=
  foldr Z.add 0 (map snd categories).

(** A string of decimal digits. *)
Fixpoint isDigits (s : string) : bool :=
  match s with
  | "" => true
  | String c s' => isDigit c && isDigits s'
  end.

(** A group of digits, as the header pattern captures it. *)
Definition digitGroup (g : string) : Prop :=
  isDigits g = true /\ g <> "".

(** The number a string of decimal digits denotes, read onto [acc]. *)
Fixpoint valueOf (acc : Z) (s : string) : Z :=
  match s with
  | "" => acc
  | String c s' => valueOf (10 * acc + (Z.of_nat (nat_of_ascii c) - 48)) s'
  end.

(** A hunk whose four range fields are numbers, none negative. *)
Definition numericHunk (hunk : GitHunk) : Prop :=
  exists a b c d,
    Hunk.oldStart hunk = Num a /\ Hunk.oldLines hunk = Num b
    /\ Hunk.newStart hunk = Num c /\ Hunk.newLines hunk = Num d
    /\ 0 <= a /\ 0 <= b /\ 0 <= c /\ 0 <= d.

(** A line that opens a hunk: it starts with [@@] and has the numeric
    form. *)
Definition opensHunk (line : string) : bool :=
  startsWith line "@@" && bool_decide (is_Some (Git.hunkMatch line)).

(** Every line that starts with [@@] has the numeric form. *)
Definition wellFormedHeaders (lines : list string) : Prop :=
  Forall (fun line => startsWith line "@@" = true ->
                      is_Some (Git.hunkMatch line)) lines.

(** The three classes of lines inside a hunk. *)
Definition isAddition (line : string) : bool :=
  startsWith line "+" && negb (startsWith line "+++").

Definition isDeletion (line : string) : bool :=
  startsWith line "-" && negb (startsWith line "---").

Definition isContext (line : string) : bool := startsWith line " ".

(** The lines of a class, without their marker. *)
Definition marked (class : string -> bool) (lines : list string)
  : list string :=
  map (substring 1) (List.filter class lines).

(** All the lines of a list of hunks, in order. *)
Definition allLines (hunks : list GitHunk) : list string :=
  concat (map Hunk.lines hunks).

(** No line of the hunk starts with [@@]. *)
Definition noHeaderInside (hunk : GitHunk) : Prop :=
  Forall (fun line => startsWith line "@@" = false) (Hunk.lines hunk).

(** What every scan state satisfies: references point into the heap,
    the hunks are numeric and hold no header line, and nothing has been
    pushed while no hunk is current. *)
Definition scanOK (st : Git.Scan) : Prop :=
  Forall (fun r => (r < length (Git.heap st))%nat) (Git.hunks st)
  /\ (forall h, Git.currentHunk st = Some h -> (h < length (Git.heap st))%nat)
  /\ Forall numericHunk (Git.heap st)
  /\ Forall noHeaderInside (Git.heap st)
  /\ (Git.currentHunk st = None -> Git.hunks st = [] /\ Git.inHunk st = false)
  /\ (is_Some (Git.currentHunk st) -> Git.inHunk st = true).


(** The severity of the comment, if it has one, is a known one. *)
Definition severityOK (c : ReviewComment) : Prop :=
  forall s, Comment.severity c = Some s -> In s Engine.severities.

(** The lines of a response that start a record of the line scanner. *)
Definition fileLines (response : string) : list string :=
  List.filter (fun line => startsWith line "File:") (split LF response).

(** The state of the line scanner after lines of which [n] started a
    record. *)
Definition scannerOK (st : Provider.Scanner) (n : nat) : Prop :=
  Forall (fun c => truthy (Comment.file c) = true /\ severityOK c)
    (Provider.comments st)
  /\ severityOK (Provider.currentComment st)
  /\ (length (Provider.comments st)
      + (if truthy (Comment.file (Provider.currentComment st)) then 1 else 0)
      <= n)%nat.

(** A string without the byte 240, the first byte of the robot glyph. *)
Fixpoint plain (s : string) : bool :=
  match s with
  | "" => true
  | String c s' => negb (Ascii.eqb c (ascii_of_nat 240)) && plain s'
  end.

(** [m] differs from [s] at a position that both have. *)
Fixpoint mismatch (m s : string) : bool :=
  match m, s with
  | String a m', String b s' => if Ascii.eqb a b then mismatch m' s' else true
  | _, _ => false
  end.

(** At no position of [lit] can an occurrence of [m] start, whatever
    follows [lit]. *)
Fixpoint clear (m lit : string) : bool :=
  match lit with
  | "" => true
  | String _ lit' => mismatch m lit && clear m lit'
  end.



Definition olist {A} (x : option A) : list A :=
  match x with
  | Some a => [a]
  | None => []
  end.

(** The lines that start with [@@]. *)
Definition headerLines (lines : list string) : list string :=
  List.filter (fun line => startsWith line "@@") lines.

(** The scan of a block whose headers are all well formed, after [n]
    of them: the heap holds [n] hunks, each referenced once, in order,
    by the hunk list followed by the current hunk, and the three lists
    of the file are the marked lines of those hunks. *)
Definition inStep (st : Git.Scan) (n : nat) : Prop :=
  length (Git.heap st) = n
  /\ (Git.hunks st ++ olist (Git.currentHunk st))%list = seq 0 n
  /\ Git.additions st = marked isAddition (allLines (Git.heap st))
  /\ Git.deletions st = marked isDeletion (allLines (Git.heap st))
  /\ Git.context st = marked isContext (allLines (Git.heap st)).

End Shape.

(** ** Further sample inputs *)

Module Samples2.

(** A host without API keys in its environment. *)
Definition noKeys : Engine.Host nat :=
  Engine.mkHost nat (fun _ => inr Samples.sourceDiff) (fun _ => None)
    (fun _ => None) (fun _ => None)
    (fun _ => Samples.failing) (fun _ => Samples.failing).

(** A host whose repository cannot be read. *)
Definition noRepository : Engine.Host nat :=
  Engine.mkHost nat (fun _ => inl (Error "not a git repository"))
    (fun _ => Some "key") (fun _ => None) (fun _ => None)
    (fun _ => Samples.failing) (fun _ => Samples.failing).


End Samples2.

(** * Properties *)

(** ** Shared lemmas *)

Lemma includes_In (l : list string) (x : string) :
  includes l x = true <-> In x l.
Proof.
  unfold includes. rewrite existsb_exists. split.
  - intros (y & Hy & Heq). apply String.eqb_eq in Heq. now subst.
  - intros H. exists x. split; [assumption | apply String.eqb_refl].
Qed.

Lemma includesO_Some (l : list string) (x : option string) :
  includesO l x = true <-> exists s, x = Some s /\ In s l.
Proof.
  destruct x as [s|]; simpl.
  - rewrite includes_In. split.
    + intros H. now exists s.
    + intros (s' & [= ->] & H). exact H.
  - split; [discriminate | intros (s & [=] & _)].
Qed.

Lemma severities_cases (s : string) :
  In s Engine.severities -> s = "info" \/ s = "warning" \/ s = "error".
Proof. simpl. intuition. Qed.

Lemma valid_severity (c : ReviewComment) :
  Engine.isValidComment c = true ->
  exists s, Comment.severity c = Some s /\ In s Engine.severities.
Proof.
  unfold Engine.isValidComment. rewrite !andb_true_iff.
  intros [[[[_ _] H] _] _]. now apply includesO_Some.
Qed.

(** On a known severity the weight table of the code and the weights of
    the specification agree. *)
Lemma weight_known (c : ReviewComment) (s : string) :
  Comment.severity c = Some s -> In s Engine.severities ->
  Engine.weight c = Num (Spec.weightOf c).
Proof.
  intros Hs Hin. unfold Engine.weight, Spec.weightOf. rewrite Hs.
  destruct (severities_cases s Hin) as [-> | [-> | ->]]; reflexivity.
Qed.

Lemma penalty_fold (cs : list ReviewComment) (a : Z) :
  Forall Spec.knownSeverity cs ->
  foldl (fun sum comment => plus sum (Engine.weight comment)) (Num a) cs
  = Num (a + Spec.penalty cs).
Proof.
  intros H. revert a. induction H as [| c cs (s & Hs & Hin) _ IH]; intros a.
  - simpl. f_equal. unfold Spec.penalty. simpl. lia.
  - simpl. rewrite (weight_known c s Hs Hin). simpl. rewrite IH.
    f_equal. unfold Spec.penalty. simpl. lia.
Qed.

Lemma calculateScore_known (cs : list ReviewComment) :
  Forall Spec.knownSeverity cs ->
  Engine.calculateScore cs = Num (Spec.clamp (100 + Spec.penalty cs) 0 100).
Proof.
  intros H. unfold Engine.calculateScore.
  destruct cs as [| c cs]; [reflexivity |].
  change (length (c :: cs) =? 0)%nat with false. cbv iota.
  rewrite penalty_fold by assumption. reflexivity.
Qed.

Lemma clamp_range (x : Z) : 0 <= Spec.clamp x 0 100 <= 100.
Proof. unfold Spec.clamp. lia. Qed.

(** C1. For every list of validated comments the score is
    clamp(100 + sum of the weights, 0, 100), with weight -10 for an error,
    -5 for a warning and -1 for an info; the empty list scores 100 and
    every score lies between 0 and 100. *)
Theorem score_is_clamped_penalty (comments : list ReviewComment) :
  Forall (fun c => Engine.isValidComment c = true) comments ->
  Engine.calculateScore comments
  = Num (Spec.clamp (100 + Spec.penalty comments) 0 100)
  /\ (exists s, Engine.calculateScore comments = Num s /\ 0 <= s <= 100)
  /\ Engine.calculateScore [] = Num 100
  /\ Spec.weight "error" = -10 /\ Spec.weight "warning" = -5
  /\ Spec.weight "info" = -1.
Proof.
  intros Hvalid.
  assert (Hknown : Forall Spec.knownSeverity comments).
  { eapply Forall_impl; [exact Hvalid |]. intros c Hc. now apply valid_severity. }
  split; [now apply calculateScore_known |].
  split.
  - eexists. split; [now apply calculateScore_known | apply clamp_range].
  - repeat split; reflexivity.
Qed.

Lemma penalty_app (l1 l2 : list ReviewComment) :
  Spec.penalty (l1 ++ l2) = Spec.penalty l1 + Spec.penalty l2.
Proof.
  unfold Spec.penalty. rewrite map_app, foldr_app.
  induction (map Spec.weightOf l1) as [| x xs IH]; simpl; lia.
Qed.

Lemma penalty_nonpos (cs : list ReviewComment) : Spec.penalty cs <= 0.
Proof.
  unfold Spec.penalty. induction cs as [| c cs IH]; simpl; [lia |].
  assert (Spec.weightOf c <= 0); [| lia].
  unfold Spec.weightOf, Spec.weight.
  repeat match goal with |- context [String.eqb ?a ?b] => destruct (String.eqb a b) end; lia.
Qed.

(** One more error-severity comment lowers the score by ten, down to the
    floor: the score strictly decreases unless it is already zero. *)
Lemma score_monotone (comments : list ReviewComment) (e : ReviewComment)
  (s s' : Z) :
  Forall Spec.knownSeverity comments ->
  Spec.hasSeverity "error" e ->
  Engine.calculateScore comments = Num s ->
  Engine.calculateScore (comments ++ [e]) = Num s' ->
  s' = Z.max 0 (s - 10) /\ (0 < s -> s' < s) /\ (s = 0 -> s' = 0).
Proof.
  intros Hknown He Hs Hs'.
  assert (Hknown' : Forall Spec.knownSeverity (comments ++ [e])).
  { apply Forall_app. split; [exact Hknown |]. repeat constructor.
    exists "error". split; [exact He | simpl; auto]. }
  rewrite calculateScore_known in Hs by assumption.
  rewrite calculateScore_known in Hs' by assumption.
  injection Hs as <-. injection Hs' as <-.
  rewrite penalty_app. pose proof (penalty_nonpos comments).
  assert (Spec.penalty [e] = -10) as ->.
  { unfold Spec.penalty, Spec.weightOf. simpl. unfold Spec.hasSeverity in He.
    rewrite He. reflexivity. }
  unfold Spec.clamp. lia.
Qed.

Lemma filter_none {A} (p : A -> bool) (l : list A) :
  (length (List.filter p l) =? 0)%nat = true <-> Forall (fun x => p x = false) l.
Proof.
  induction l as [| x l IH]; simpl.
  - split; [constructor | reflexivity].
  - destruct (p x) eqn:Hp; simpl.
    + split; [discriminate |]. intros H. inversion H; congruence.
    + rewrite IH. split.
      * intros H. now constructor.
      * intros H. now inversion H.
Qed.

Lemma isBlocking_blocks (config : ReviewConfig) (c : ReviewComment) :
  Engine.isBlocking config c = true <-> Spec.blocks config c.
Proof.
  unfold Engine.isBlocking, Spec.blocks, Spec.blockingSeverities.
  destruct (Config.requireApprovalFor config) as [l|]; simpl.
  - apply includesO_Some.
  - split; [discriminate | intros (s & _ & [])].
Qed.

Lemma shouldApprove_iff (config : ReviewConfig) (comments : list ReviewComment) :
  Engine.shouldApprove config comments = true <->
  Forall (fun c => ~ Spec.blocks config c) comments.
Proof.
  unfold Engine.shouldApprove.
  destruct (default false (Config.autoApprove config) && (length comments =? 0)%nat)
    eqn:Hauto.
  - apply andb_true_iff in Hauto as [_ Hlen].
    destruct comments; [| discriminate]. split; [constructor | reflexivity].
  - rewrite filter_none.
    split; intros H; eapply Forall_impl; try exact H; intros c Hc; simpl in *.
    + rewrite <- isBlocking_blocks. congruence.
    + rewrite <- isBlocking_blocks in Hc. now destruct (Engine.isBlocking config c).
Qed.

(** C2. An empty list under auto-approve is approved; in every case the
    result is approved exactly when no comment has a severity of the
    configured requireApprovalFor list, which the loader defaults to
    [error]. With that list a list of warnings is approved, and one
    error-severity comment added anywhere makes it not approved. *)
Theorem approval_rule (config : ReviewConfig) (comments : list ReviewComment) :
  (comments = [] -> Config.autoApprove config = Some true ->
   Engine.shouldApprove config comments = true)
  /\ (Engine.shouldApprove config comments = true <->
      Forall (fun c => ~ Spec.blocks config c) comments)
  /\ Config.requireApprovalFor (Loader.mergeWithDefaults Loader.empty)
     = Some ["error"]
  /\ (Config.requireApprovalFor config = Some ["error"] ->
      Forall (Spec.hasSeverity "warning") comments ->
      Engine.shouldApprove config comments = true
      /\ forall e before after,
           Spec.hasSeverity "error" e -> comments = (before ++ after)%list ->
           Engine.shouldApprove config (before ++ e :: after) = false).
Proof.
  split; [| split; [| split]].
  - intros -> Hauto. unfold Engine.shouldApprove. now rewrite Hauto.
  - apply shouldApprove_iff.
  - reflexivity.
  - intros Hreq Hwarn. split.
    + apply shouldApprove_iff. eapply Forall_impl; [exact Hwarn |].
      intros c Hc (s & Hs & Hin). unfold Spec.blockingSeverities in Hin.
      rewrite Hreq in Hin. unfold Spec.hasSeverity in Hc.
      simpl in Hin. destruct Hin as [<- | []]. congruence.
    + intros e before after He _.
      destruct (Engine.shouldApprove config (before ++ e :: after)) eqn:Happ;
        [| reflexivity].
      apply shouldApprove_iff in Happ. rewrite Forall_app in Happ.
      destruct Happ as [_ Happ]. inversion Happ as [| ? ? Hne _]; subst.
      exfalso. apply Hne. exists "error". split; [exact He |].
      unfold Spec.blockingSeverities. rewrite Hreq. now left.
Qed.

Lemma thresholdOrder_rank (t : string) :
  Spec.isThreshold t -> get Engine.thresholdOrder t = Some (Spec.thresholdRank t).
Proof. intros [-> | [-> | ->]]; reflexivity. Qed.

Lemma severityOrder_rank (s : string) :
  In s Engine.severities -> get Engine.severityOrder s = Some (Spec.severityRank s).
Proof. intros H. destruct (severities_cases s H) as [-> | [-> | ->]]; reflexivity. Qed.

Lemma orElse_threshold (config : ReviewConfig) :
  Spec.wellTyped config ->
  orElse (Config.severityThreshold config) "low" = Spec.thresholdOf config
  /\ Spec.isThreshold (Spec.thresholdOf config).
Proof.
  unfold Spec.wellTyped, Spec.thresholdOf. intros H.
  destruct (Config.severityThreshold config) as [t|]; simpl.
  - specialize (H t eq_refl). split; [| exact H].
    destruct H as [-> | [-> | ->]]; reflexivity.
  - split; [reflexivity | now left].
Qed.

Lemma meets_rank (config : ReviewConfig) (c : ReviewComment) (s : string) :
  Spec.wellTyped config ->
  Comment.severity c = Some s -> In s Engine.severities ->
  Engine.meetsSeverityThreshold config c
  = (Spec.thresholdRank (Spec.thresholdOf config) <=? Spec.severityRank s).
Proof.
  intros Hcfg Hs Hin. unfold Engine.meetsSeverityThreshold.
  destruct (orElse_threshold config Hcfg) as [-> Ht].
  rewrite Hs.
  change (Some s ≫= get Engine.severityOrder) with (get Engine.severityOrder s).
  rewrite (severityOrder_rank s Hin), (thresholdOrder_rank _ Ht). reflexivity.
Qed.

Lemma validateAndFilterComments_app (config : ReviewConfig)
  (l1 l2 : list ReviewComment) (filePath : string) :
  Engine.validateAndFilterComments config (l1 ++ l2) filePath
  = (Engine.validateAndFilterComments config l1 filePath
     ++ Engine.validateAndFilterComments config l2 filePath)%list.
Proof.
  unfold Engine.validateAndFilterComments.
  now rewrite !List.filter_app, map_app.
Qed.

(** C3. A valid comment is kept exactly when the rank of its severity
    (info 1, warning 2, error 3) is at least the rank of the threshold
    (low 1, medium 2, high 3); a configuration without threshold is
    treated as low, under which every valid comment is kept. *)
Theorem threshold_rule (config : ReviewConfig) (comment : ReviewComment)
  (s : string) :
  Spec.wellTyped config ->
  Engine.isValidComment comment = true ->
  Comment.severity comment = Some s ->
  (Engine.meetsSeverityThreshold config comment = true <->
   Spec.thresholdRank (Spec.thresholdOf config) <= Spec.severityRank s)
  /\ (forall before after filePath,
        Engine.validateAndFilterComments config (before ++ comment :: after) filePath
        = (Engine.validateAndFilterComments config before filePath
           ++ (if Spec.thresholdRank (Spec.thresholdOf config) <=? Spec.severityRank s
               then [Engine.stamp filePath comment] else [])
           ++ Engine.validateAndFilterComments config after filePath)%list)
  /\ (Config.severityThreshold config = None ->
      Spec.thresholdOf config = "low"
      /\ Engine.meetsSeverityThreshold config comment = true).
Proof.
  intros Hcfg Hvalid Hs.
  destruct (valid_severity comment Hvalid) as (s' & Hs' & Hin).
  assert (s' = s) by congruence. subst s'.
  pose proof (meets_rank config comment s Hcfg Hs Hin) as Hmeets.
  split; [| split].
  - rewrite Hmeets. apply Z.leb_le.
  - intros before after filePath.
    change (comment :: after) with ([comment] ++ after)%list.
    rewrite !validateAndFilterComments_app. do 2 f_equal.
    unfold Engine.validateAndFilterComments. simpl.
    rewrite Hvalid. simpl. rewrite Hmeets.
    now destruct (_ <=? _).
  - intros Hnone. unfold Spec.thresholdOf in *. rewrite Hnone in *. simpl in *.
    split; [reflexivity |]. rewrite Hmeets.
    destruct (severities_cases s Hin) as [-> | [-> | ->]]; reflexivity.
Qed.

(** ** The diff parser *)

Lemma startsWith_cons (c d : ascii) (p s : string) :
  startsWith (String d s) (String c p)
  = if Ascii.eqb c d then startsWith s p else false.
Proof.
  unfold startsWith. simpl. destruct (ascii_dec c d) as [-> | Hne].
  - now rewrite Ascii.eqb_refl.
  - apply Ascii.eqb_neq in Hne. now rewrite Hne.
Qed.

(** A line that starts with one character does not start with another. *)
Lemma startsWith_head (line : string) (c d : ascii) (p : string) :
  startsWith line (String c "") = true -> c <> d ->
  startsWith line (String d p) = false.
Proof.
  destruct line as [| a line]; [discriminate |].
  rewrite !startsWith_cons. destruct (Ascii.eqb c a) eqn:Hc; [| discriminate].
  apply Ascii.eqb_eq in Hc. subst a. intros _ Hne.
  apply not_eq_sym, Ascii.eqb_neq in Hne. now rewrite Hne.
Qed.

Lemma alter_open (st : Git.Scan) (h : nat) (hk : GitHunk) (line : string) :
  Git.heap st !! h = Some hk ->
  alter (Git.pushLine line) h (Git.heap st) !! h = Some (Git.pushLine line hk).
Proof. intros H. rewrite list_lookup_alter_eq, H. reflexivity. Qed.

(** C5, as the code has it. Inside an open hunk every line that is not a
    hunk header is appended as it stands, marker included, to the line
    list of the hunk; a [+] line that is not a [+++] line has the text
    after its marker appended to the additions of the file, a [-] line
    that is not a [---] line to its deletions, and a line with a leading
    space to its context lines. The other lists, the hunk list and the
    open hunk do not change. *)
Theorem line_classification (st : Git.Scan) (h : nat) (hk : GitHunk)
  (line : string) :
  openHunk st h hk ->
  let st' := Git.scanLine st line in
  let heap' := alter (Git.pushLine line) h (Git.heap st) in
  (startsWith line "@@" = false ->
   Git.heap st' !! h = Some (Git.pushLine line hk)
   /\ Hunk.lines (Git.pushLine line hk) = (Hunk.lines hk ++ [line])%list
   /\ openHunk st' h (Git.pushLine line hk)
   /\ Git.hunks st' = Git.hunks st)
  /\ (startsWith line "+" = true -> startsWith line "+++" = false ->
      st' = Git.mkScan (Git.additions st ++ [substring 1 line])
              (Git.deletions st) (Git.context st) (Git.hunks st) heap'
              (Some h) true)
  /\ (startsWith line "-" = true -> startsWith line "---" = false ->
      st' = Git.mkScan (Git.additions st)
              (Git.deletions st ++ [substring 1 line]) (Git.context st)
              (Git.hunks st) heap' (Some h) true)
  /\ (startsWith line " " = true ->
      st' = Git.mkScan (Git.additions st) (Git.deletions st)
              (Git.context st ++ [substring 1 line]) (Git.hunks st) heap'
              (Some h) true).
Proof.
  intros (Hin & Hcur & Hheap) st' heap'. subst st'.
  pose proof (alter_open st h hk line Hheap) as Halter. fold heap' in Halter.
  unfold Git.scanLine. rewrite Hin, Hcur. fold heap'.
  split; [| split; [| split]].
  - intros Hat. rewrite Hat.
    repeat match goal with
           | |- context [if ?b then _ else _] => destruct b
           end;
      cbn [Git.heap Git.hunks]; (split; [exact Halter |]);
      (split; [reflexivity |]); (split; [| reflexivity]);
      repeat split; assumption.
  - intros Hplus Hnot3.
    rewrite (startsWith_head line "+" "@" "@" Hplus) by discriminate.
    now rewrite Hplus, Hnot3.
  - intros Hminus Hnot3.
    rewrite (startsWith_head line "-" "@" "@" Hminus) by discriminate.
    rewrite (startsWith_head line "-" "+" "" Hminus) by discriminate.
    now rewrite Hminus, Hnot3.
  - intros Hspace.
    rewrite (startsWith_head line " " "@" "@" Hspace) by discriminate.
    rewrite (startsWith_head line " " "+" "" Hspace) by discriminate.
    rewrite (startsWith_head line " " "-" "" Hspace) by discriminate.
    now rewrite Hspace.
Qed.

Lemma line_classification_witness :
  openHunk Samples.opened 0 (Hunk.mk (Num 1) (Num 1) (Num 1) (Num 1) [])
  /\ Git.scanLine Samples.opened "+x"
     = Git.mkScan ["x"] [] [] []
         [Hunk.mk (Num 1) (Num 1) (Num 1) (Num 1) ["+x"]] (Some 0%nat) true.
Proof.
  assert (H : openHunk Samples.opened 0
                (Hunk.mk (Num 1) (Num 1) (Num 1) (Num 1) [])).
  { repeat split. }
  split; [exact H |].
  destruct (line_classification _ _ _ "+x" H) as (_ & Hplus & _).
  exact (Hplus eq_refl eq_refl).
Defined.

(** C5, as stated, fails: the text of a [+] line without its marker is
    what the additions receive, but the line list of the hunk receives
    the line with its marker. *)
Lemma stripped_text_not_in_hunk_lines :
  ~ (forall (st : Git.Scan) (h : nat) (hk : GitHunk) (line : string),
       openHunk st h hk ->
       startsWith line "+" = true -> startsWith line "+++" = false ->
       exists hk',
         Git.heap (Git.scanLine st line) !! h = Some hk'
         /\ Hunk.lines hk' = (Hunk.lines hk ++ [substring 1 line])%list
         /\ Git.additions (Git.scanLine st line)
            = (Git.additions st ++ [substring 1 line])%list).
Proof.
  intros H.
  destruct (H Samples.opened 0%nat
              (Hunk.mk (Num 1) (Num 1) (Num 1) (Num 1) []) "+x")
    as (hk' & Hheap & Hlines & _); [repeat split | reflexivity | reflexivity |].
  vm_compute in Hheap. injection Hheap as <-. discriminate Hlines.
Qed.

(** C6. The two hunk headers of the specification and the hunks they
    open. *)
Theorem hunk_header_examples :
  Git.newHunk <$> Git.hunkMatch "@@ -10,5 +12,7 @@"
  = Some (Hunk.mk (Num 10) (Num 5) (Num 12) (Num 7) [])
  /\ Git.newHunk <$> Git.hunkMatch "@@ -1 +1 @@"
     = Some (Hunk.mk (Num 1) (Num 1) (Num 1) (Num 1) [])
  /\ Git.parseDiff Samples.twoHeaders
     = [Change.mk "src/app.ts" [] [] []
          [Hunk.mk (Num 10) (Num 5) (Num 12) (Num 7) [];
           Hunk.mk (Num 1) (Num 1) (Num 1) (Num 1) []]].
Proof. repeat split; vm_compute; reflexivity. Qed.

(** C4 fails on the code when a hunk is open. The malformed header opens
    no hunk, but the hunk before it stays current: it receives the lines
    that follow ([+two] below, which also reaches the additions) and is
    pushed to the hunk list a second time. *)
Theorem malformed_header_keeps_hunk_open :
  Git.hunkMatch "@@ malformed @@" = None
  /\ Git.parseDiff Samples.malformedHeader
     = [Change.mk "f.ts" ["one"; "two"] [] []
          [Hunk.mk (Num 1) (Num 2) (Num 1) (Num 2) ["+one"; "+two"];
           Hunk.mk (Num 1) (Num 2) (Num 1) (Num 2) ["+one"; "+two"]]].
Proof. split; vm_compute; reflexivity. Qed.

(** What the parser does at a hunk header of the wrong form: it pushes
    the current hunk, if there is one, and changes nothing else. *)
Lemma malformed_header_step (st : Git.Scan) (line : string) :
  startsWith line "@@" = true -> Git.hunkMatch line = None ->
  Git.scanLine st line = Git.pushCurrent st.
Proof. intros Hat Hno. unfold Git.scanLine. now rewrite Hat, Hno. Qed.

(** Before the first hunk of a block a malformed header and the lines
    after it leave no trace. *)
Lemma malformed_header_without_hunk (st : Git.Scan) (line : string)
  (rest : list string) :
  Git.currentHunk st = None ->
  startsWith line "@@" = true -> Git.hunkMatch line = None ->
  Forall (fun l => startsWith l "@@" = false) rest ->
  foldl Git.scanLine st (line :: rest) = st.
Proof.
  intros Hcur Hat Hno Hrest. simpl.
  rewrite (malformed_header_step st line Hat Hno).
  unfold Git.pushCurrent. rewrite Hcur.
  induction Hrest as [| l rest Hl _ IH]; [reflexivity |].
  simpl. unfold Git.scanLine at 2. rewrite Hl, Hcur.
  destruct (Git.inHunk st); exact IH.
Qed.

(** With a hunk open, the line after a malformed header goes to that
    hunk. *)
Lemma malformed_header_with_hunk (st : Git.Scan) (h : nat) (hk : GitHunk)
  (header line : string) :
  openHunk st h hk ->
  startsWith header "@@" = true -> Git.hunkMatch header = None ->
  startsWith line "@@" = false ->
  let st' := Git.scanLine (Git.scanLine st header) line in
  Git.hunks (Git.scanLine st header) = (Git.hunks st ++ [h])%list
  /\ Git.currentHunk st' = Some h
  /\ Git.heap st' !! h = Some (Git.pushLine line hk).
Proof.
  intros (Hin & Hcur & Hheap) Hat Hno Hline st'. subst st'.
  rewrite (malformed_header_step st header Hat Hno).
  unfold Git.pushCurrent. rewrite Hcur. split; [reflexivity |].
  unfold Git.scanLine. rewrite Hline. cbn [Git.inHunk Git.currentHunk Git.heap].
  rewrite Hin.
  repeat match goal with
         | |- context [if ?b then _ else _] => destruct b
         end;
    (split; [reflexivity | now apply alter_open]).
Qed.

(** ** The response normalizer *)

Lemma length_append (s r : string) :
  String.length (s ++ r) = (String.length s + String.length r)%nat.
Proof. induction s as [| c s IH]; simpl; [reflexivity | now rewrite IH]. Qed.

Lemma append_assoc (s r t : string) : (s ++ r) ++ t = s ++ r ++ t.
Proof. induction s as [| c s IH]; simpl; [reflexivity | now rewrite IH]. Qed.

Lemma prefix_nil (s : string) : String.prefix "" s = true.
Proof. now destruct s. Qed.

Lemma prefix_app (p s r : string) :
  (String.length p <= String.length s)%nat ->
  String.prefix p (s ++ r) = String.prefix p s.
Proof.
  revert s. induction p as [| a p IH]; intros s Hlen.
  - now rewrite !prefix_nil.
  - destruct s as [| b s]; simpl in Hlen; [lia |].
    simpl. destruct (ascii_dec a b); [| reflexivity].
    apply IH. lia.
Qed.

Lemma prefix_self_app (p r : string) : String.prefix p (p ++ r) = true.
Proof.
  induction p as [| a p IH]; simpl.
  - apply prefix_nil.
  - destruct (ascii_dec a a); [exact IH | congruence].
Qed.

Lemma indexOf_prefix (s p : string) :
  String.prefix p s = true -> indexOf s p = Some O.
Proof. destruct s; simpl; intros ->; reflexivity. Qed.

(** The first occurrence of [p] in [s ++ p] stays the first one when text
    is appended. *)
Lemma indexOf_first_app (s p r : string) :
  indexOf (s ++ p) p = Some (String.length s) ->
  indexOf (s ++ p ++ r) p = Some (String.length s).
Proof.
  induction s as [| c s IH]; intros H.
  - apply indexOf_prefix. exact (prefix_self_app p r).
  - change (String c s ++ p) with (String c (s ++ p)) in H.
    change (String c s ++ p ++ r) with (String c (s ++ p ++ r)).
    cbn [indexOf] in H |- *.
    rewrite <- (append_assoc s p r).
    change (String c ((s ++ p) ++ r)) with (String c (s ++ p) ++ r).
    rewrite prefix_app by (simpl; rewrite length_append; lia).
    destruct (String.prefix p (String c (s ++ p))); [discriminate |].
    rewrite append_assoc.
    destruct (indexOf (s ++ p) p) as [n|] eqn:E; [| discriminate].
    injection H as H. rewrite (IH (f_equal Some H)). reflexivity.
Qed.

Lemma substring_app (s r : string) (n : nat) :
  substring (String.length s + n) (s ++ r) = substring n r.
Proof. induction s as [| c s IH]; [reflexivity | exact IH]. Qed.

Lemma take_app (s r : string) : JS.take (String.length s) (s ++ r) = s.
Proof. induction s as [| c s IH]; simpl; [now destruct r | now rewrite IH]. Qed.

Lemma startsWith_nil (s : string) : startsWith s "" = true.
Proof. apply prefix_nil. Qed.

(** A closing fence cannot begin inside [body] and end in the closing
    fence that follows it: the fence begins with a line feed, and a line
    feed is not a backquote. *)
Lemma backquotes_app (body r : string) :
  startsWith body "```" = false ->
  startsWith (body ++ Provider.fenceClose ++ r) "```" = false.
Proof.
  unfold Provider.fenceClose, nl.
  destruct body as [| c1 [| c2 [| c3 body]]];
    cbn [String.append]; rewrite ?startsWith_cons, ?startsWith_nil;
    repeat match goal with
           | |- context [Ascii.eqb ?a ?b] => destruct (Ascii.eqb a b) eqn:?
           end;
    try reflexivity; try discriminate; auto.
Qed.

Lemma indexOf_close (body r : string) :
  indexOf body Provider.fenceClose = None ->
  indexOf (body ++ Provider.fenceClose ++ r) Provider.fenceClose
  = Some (String.length body).
Proof.
  induction body as [| c body IH]; intros H.
  - apply indexOf_prefix. exact (prefix_self_app Provider.fenceClose r).
  - cbn [indexOf] in H.
    destruct (String.prefix Provider.fenceClose (String c body)) eqn:Hp;
      [discriminate |].
    destruct (indexOf body Provider.fenceClose) eqn:Hi; [discriminate |].
    change (String c body ++ Provider.fenceClose ++ r)
      with (String c (body ++ Provider.fenceClose ++ r)).
    cbn [indexOf].
    assert (Hq : startsWith (String c (body ++ Provider.fenceClose ++ r))
                   Provider.fenceClose = false).
    { change (startsWith (String c body) Provider.fenceClose = false) in Hp.
      unfold Provider.fenceClose at 2, nl. unfold Provider.fenceClose, nl in Hp.
      change (String LF "" ++ "```") with (String LF "```") in *.
      rewrite startsWith_cons in *.
      destruct (Ascii.eqb LF c); [| reflexivity].
      now apply backquotes_app. }
    unfold startsWith in Hq. rewrite Hq, IH by reflexivity. reflexivity.
Qed.

(** No JSON text holds a closing fence: the line feed of the fence would
    stand outside a string literal, and the backquote after it too. *)
Lemma json_text_has_no_fence (mode : Spec.LexMode) (body : string) :
  Spec.jsonLexical mode body = true ->
  indexOf body Provider.fenceClose = None.
Proof.
  revert mode. induction body as [| c body IH]; intros mode H.
  - reflexivity.
  - cbn [indexOf].
    assert (Hp : startsWith (String c body) Provider.fenceClose = false).
    { unfold Provider.fenceClose, nl.
      change (String LF "" ++ "```") with (String LF "```").
      rewrite startsWith_cons.
      destruct (Ascii.eqb LF c) eqn:Hc; [| reflexivity].
      apply Ascii.eqb_eq in Hc. subst c.
      destruct mode; simpl in H; try discriminate.
      destruct body as [| c1 body]; [reflexivity |].
      rewrite startsWith_cons.
      destruct (Ascii.eqb "`" c1) eqn:Hc1; [| reflexivity].
      apply Ascii.eqb_eq in Hc1. subst c1. simpl in H. discriminate. }
    unfold startsWith in Hp. rewrite Hp.
    assert (Hrest : exists mode', Spec.jsonLexical mode' body = true).
    { destruct mode; simpl in H;
        repeat match type of H with
               | context [if ?b then _ else _] => destruct b
               end;
        try discriminate; eauto. }
    destruct Hrest as (mode' & Hrest). now rewrite (IH mode' Hrest).
Qed.

Lemma jsonMatch_fenced (before body after : string) :
  indexOf (before ++ Provider.fenceOpen) Provider.fenceOpen
  = Some (String.length before) ->
  indexOf body Provider.fenceClose = None ->
  Provider.jsonMatch
    (before ++ Provider.fenceOpen ++ body ++ Provider.fenceClose ++ after)
  = Some body.
Proof.
  intros Hopen Hclose. unfold Provider.jsonMatch.
  rewrite (indexOf_first_app _ _ _ Hopen). cbn [mbind option_bind].
  rewrite substring_app.
  replace (String.length Provider.fenceOpen)
    with (String.length Provider.fenceOpen + 0)%nat by lia.
  rewrite substring_app. cbn [substring].
  rewrite (indexOf_close _ _ Hclose). cbn [mbind option_bind].
  now rewrite take_app.
Qed.

(** C7. A JSON array of comments inside the first json fence of a
    response is returned as [JSON.parse] decodes it: the same comments,
    as many and field for field. When the fenced text, or the raw text
    that starts with a bracket or a brace, is not JSON, the result is that
    of the line scanner; and no response makes the normalizer throw. *)
Theorem normalizer_contract (JSON_parse : string -> Thrown + list ReviewComment) :
  (forall before body after comments,
     indexOf (before ++ Provider.fenceOpen) Provider.fenceOpen
     = Some (String.length before) ->
     indexOf body Provider.fenceClose = None ->
     JSON_parse body = inr comments ->
     Provider.parseReviewResponse JSON_parse
       (before ++ Provider.fenceOpen ++ body ++ Provider.fenceClose ++ after)
     = inr comments)
  /\ (forall response group error,
        Provider.jsonMatch response = Some group ->
        JSON_parse group = inl error ->
        Provider.parseReviewResponse JSON_parse response
        = inr (Provider.parseTextResponse response))
  /\ (forall response error,
        Provider.jsonMatch response = None ->
        startsWith (trim response) "[" || startsWith (trim response) "{" = true ->
        JSON_parse (trim response) = inl error ->
        Provider.parseReviewResponse JSON_parse response
        = inr (Provider.parseTextResponse response))
  /\ (forall response,
        exists comments,
          Provider.parseReviewResponse JSON_parse response = inr comments).
Proof.
  unfold Provider.parseReviewResponse. repeat split.
  - intros before body after comments Hopen Hclose Hjson.
    now rewrite (jsonMatch_fenced _ _ _ Hopen Hclose), Hjson.
  - intros response group error -> ->. reflexivity.
  - intros response error -> -> ->. reflexivity.
  - intros response.
    destruct (Provider.jsonMatch response) as [group|].
    + destruct (JSON_parse group); simpl; eauto.
    + destruct (_ || _); [destruct (JSON_parse _) |]; simpl; eauto.
Qed.

(** ** The file filter *)

Section FilterPolicy.

Variable minimatch : string -> string -> bool.
Variable extname : string -> string.

Lemma existsb_matchesAny (path : string) (globs : list string) :
  existsb (fun pattern => minimatch path pattern) globs = true
  <-> Filter.matchesAny minimatch path globs.
Proof. unfold Filter.matchesAny. now rewrite existsb_exists. Qed.

Lemma isIgnored_iff (f : Filter.FileFilter) (path : string) :
  Filter.isIgnored minimatch f path = true
  <-> Filter.matchesAny minimatch path (Filter.ignorePatterns f).
Proof. apply existsb_matchesAny. Qed.

Lemma shouldReview_ignored (f : Filter.FileFilter) (path : string) :
  Filter.matchesAny minimatch path (Filter.ignorePatterns f) ->
  Filter.shouldReview minimatch extname f path = false.
Proof.
  intros H. apply isIgnored_iff in H. unfold Filter.shouldReview.
  now rewrite H.
Qed.

Lemma shouldReview_kept (f : Filter.FileFilter) (path : string) :
  ~ Filter.matchesAny minimatch path (Filter.ignorePatterns f) ->
  Filter.shouldReview minimatch extname f path
  = match Filter.includePatterns f with
    | [] => includes Filter.reviewableExtensions (toLowerCase (extname path))
    | _ :: _ => Filter.isIncluded minimatch f path
    end.
Proof.
  intros H. rewrite <- isIgnored_iff in H. unfold Filter.shouldReview.
  destruct (Filter.isIgnored minimatch f path); [congruence |].
  now destruct (Filter.includePatterns f).
Qed.

(** C8. The policy of [shouldReview], in order: a path that matches an
    ignore glob, default or given by the user, is rejected; otherwise,
    with include globs, it is accepted exactly when it matches one of
    them; otherwise exactly when its extension is in the allow-list.
    Hence [node_modules/x.js] is rejected under every user pattern list,
    [src/app.ts] is accepted under the defaults, and a path that matches
    a user ignore glob is rejected whatever its extension. *)
Theorem shouldReview_policy (user include : option (list string))
  (path : string) :
  let f := Filter.new user include in
  let ignored :=
    Filter.matchesAny minimatch path (Filter.getDefaultIgnorePatterns ++ default [] user) in
  (ignored -> Filter.shouldReview minimatch extname f path = false)
  /\ (~ ignored -> default [] include <> [] ->
      (Filter.shouldReview minimatch extname f path = true
       <-> Filter.matchesAny minimatch path (default [] include)))
  /\ (~ ignored -> default [] include = [] ->
      (Filter.shouldReview minimatch extname f path = true
       <-> In (toLowerCase (extname path)) Filter.reviewableExtensions))
  /\ (minimatch "node_modules/x.js" "node_modules/**" = true ->
      Filter.shouldReview minimatch extname f "node_modules/x.js" = false)
  /\ ((forall g, In g Filter.getDefaultIgnorePatterns ->
                 minimatch "src/app.ts" g = false) ->
      extname "src/app.ts" = ".ts" ->
      Filter.shouldReview minimatch extname (Filter.new None None) "src/app.ts"
      = true)
  /\ (Filter.matchesAny minimatch path (default [] user) ->
      Filter.shouldReview minimatch extname f path = false).
Proof.
  intros f ignored.
  assert (Hkept : ~ ignored ->
            Filter.shouldReview minimatch extname f path
            = match default [] include with
              | [] => includes Filter.reviewableExtensions
                        (toLowerCase (extname path))
              | _ :: _ => existsb (fun pattern => minimatch path pattern)
                            (default [] include)
              end).
  { intros Hno. rewrite (shouldReview_kept f path Hno). reflexivity. }
  split; [exact (shouldReview_ignored f path) |].
  split.
  { intros Hno Hinc. rewrite (Hkept Hno).
    destruct (default [] include) eqn:E; [congruence |].
    apply existsb_matchesAny. }
  split.
  { intros Hno Hinc. rewrite (Hkept Hno), Hinc. apply includes_In. }
  split.
  { intros Hnode. apply (shouldReview_ignored f).
    exists "node_modules/**". split; [| exact Hnode]. simpl. now left. }
  split.
  { intros Hnone Hext. rewrite shouldReview_kept.
    - simpl. now rewrite Hext.
    - intros (g & Hg & Hm).
      change (In g (Filter.getDefaultIgnorePatterns ++ [])) in Hg.
      rewrite app_nil_r in Hg.
      rewrite (Hnone g Hg) in Hm. discriminate. }
  intros (g & Hg & Hm). apply (shouldReview_ignored f).
  exists g. split; [| exact Hm].
  change (In g (Filter.getDefaultIgnorePatterns ++ default [] user)).
  apply in_app_iff. now right.
Qed.

End FilterPolicy.

(** ** The orchestration *)

Section Runs.

Context {W : Type}.
Variable minimatch : string -> string -> bool.
Variable extname : string -> string.
Variable host : Engine.Host W.
Variable config : ReviewConfig.

(** C9. When no parsed change passes the file filter the run returns the
    fixed result: no comment, score 100, approved, the seven category
    counts at zero and the no-reviewable-changes summary. It makes no
    provider call and leaves the world as it was. *)
Theorem no_reviewable_changes (baseSha headSha : string) (w : W)
  (changes : list CodeChange) :
  Engine.getChanges host baseSha headSha = inr changes ->
  Engine.filterReviewableChanges minimatch extname config changes = [] ->
  Engine.reviewChanges minimatch extname host config baseSha headSha w
  = Engine.mkRun
      (inr (Result.mk [] "No reviewable changes found" true (Num 100)
              [ ("code-quality", 0); ("security", 0); ("performance", 0);
                ("maintainability", 0); ("style", 0); ("testing", 0);
                ("documentation", 0) ]))
      w [].
Proof.
  intros Hchanges Hnone. unfold Engine.reviewChanges.
  rewrite Hchanges, Hnone. reflexivity.
Qed.

Variable provider : AIProvider W.
Variables reviewPrompt codingStandards : option string.

Local Abbreviation step :=
  (Engine.reviewOne extname config provider reviewPrompt codingStandards).

(** The loop only appends to the comments collected so far. *)
Lemma loop_extends (changes : list CodeChange) (st : Engine.Loop W) :
  exists more,
    Engine.allComments (foldl step st changes)
    = (Engine.allComments st ++ more)%list.
Proof.
  revert st. induction changes as [| change changes IH]; intros st.
  - exists []. simpl. now rewrite app_nil_r.
  - simpl. destruct (IH (step st change)) as (more & ->).
    unfold Engine.reviewOne.
    destruct (AI.review provider _ _ config (Engine.loopWorld st))
      as [[error | comments] w']; simpl;
      eexists; rewrite <- app_assoc; reflexivity.
Qed.

Lemma loop_failure (before after : list CodeChange) (change : CodeChange)
  (error : Thrown) (st0 : Engine.Loop W) :
  let st := foldl step st0 before in
  fst (AI.review provider (Engine.buildCodeContext extname change)
         (Engine.buildPrompt reviewPrompt codingStandards) config
         (Engine.loopWorld st)) = inl error ->
  exists more,
    Engine.allComments (foldl step st0 (before ++ change :: after))
    = (Engine.allComments st ++ Engine.failureComment change error :: more)%list.
Proof.
  intros st Hthrow. rewrite foldl_app. fold st. simpl.
  destruct (loop_extends after (step st change)) as (more & ->).
  exists more. unfold Engine.reviewOne.
  destruct (AI.review provider _ _ config (Engine.loopWorld st))
    as [answer w'].
  simpl in Hthrow. subst answer. simpl. now rewrite <- app_assoc.
Qed.

End Runs.

Lemma high_keeps_errors_only (config : ReviewConfig) (c : ReviewComment) :
  Config.severityThreshold config = Some "high" ->
  Engine.meetsSeverityThreshold config c = true ->
  Comment.severity c = Some "error".
Proof.
  unfold Engine.meetsSeverityThreshold. intros ->. simpl.
  destruct (Comment.severity c) as [s|]; [| discriminate]. simpl.
  destruct (String.eqb s "info") eqn:E1; [discriminate |].
  destruct (String.eqb s "warning") eqn:E2; [discriminate |].
  destruct (String.eqb s "error") eqn:E3; [| discriminate].
  apply String.eqb_eq in E3. now subst.
Qed.

(** C10. When the provider call for a reviewable file throws, the comment
    that stands for the failure (the path of the file, line 1, severity
    warning, category code-quality) is in the comments of the result,
    after those of the files before it, whatever the configuration. Under
    the threshold [high] it would not pass the threshold test, and no
    warning of a provider's answer does. *)
Theorem failure_comment_bypasses_filter {W : Type}
  (minimatch : string -> string -> bool) (extname : string -> string)
  (host : Engine.Host W) (config : ReviewConfig) (baseSha headSha : string)
  (w : W) (changes before after : list CodeChange) (change : CodeChange)
  (provider : AIProvider W) (error : Thrown) :
  let reviewPrompt :=
    Engine.loadReviewPrompt host (Config.reviewPromptPath config) in
  let codingStandards :=
    Engine.loadCodingStandards host (Config.codingStandardsPath config) in
  let st :=
    foldl (Engine.reviewOne extname config provider reviewPrompt codingStandards)
          (Engine.mkLoop [] w []) before in
  Engine.getChanges host baseSha headSha = inr changes ->
  Engine.filterReviewableChanges minimatch extname config changes
  = (before ++ change :: after)%list ->
  Engine.create host config = inr provider ->
  fst (AI.review provider (Engine.buildCodeContext extname change)
         (Engine.buildPrompt reviewPrompt codingStandards) config
         (Engine.loopWorld st)) = inl error ->
  (exists result more,
     Engine.outcome
       (Engine.reviewChanges minimatch extname host config baseSha headSha w)
     = inr result
     /\ Result.comments result
        = (Engine.allComments st
           ++ Engine.failureComment change error :: more)%list)
  /\ Engine.failureComment change error
     = Comment.mk (Some (Change.file change)) (Some (Num 1))
         (Some ("Failed to review file: " ++ errorMessage error))
         (Some "warning") (Some "code-quality") None
  /\ (Config.severityThreshold config = Some "high" ->
      Engine.meetsSeverityThreshold config (Engine.failureComment change error)
      = false
      /\ forall comments filePath c,
           In c (Engine.validateAndFilterComments config comments filePath) ->
           Comment.severity c = Some "error").
Proof.
  intros reviewPrompt codingStandards st Hchanges Hreviewable Hcreate Hthrow.
  split; [| split; [reflexivity |]].
  - destruct (loop_failure extname config provider reviewPrompt codingStandards
                before after change error (Engine.mkLoop [] w []) Hthrow)
      as (more & Hmore).
    unfold Engine.reviewChanges. rewrite Hchanges, Hreviewable, Hcreate.
    destruct before; simpl length; cbv iota beta;
      eexists; exists more; (split; [reflexivity |]); exact Hmore.
  - intros Hhigh. split.
    + unfold Engine.meetsSeverityThreshold. rewrite Hhigh. reflexivity.
    + intros comments filePath c Hin.
      unfold Engine.validateAndFilterComments in Hin.
      apply in_map_iff in Hin as (c' & <- & Hin).
      apply filter_In in Hin as [_ Hmeets].
      exact (high_keeps_errors_only config c' Hhigh Hmeets).
Qed.

(** ** The properties at sample inputs *)

Lemma score_is_clamped_penalty_witness :
  Forall (fun c => Engine.isValidComment c = true)
    [Samples.comment "error" "security"; Samples.comment "warning" "style"]
  /\ Engine.calculateScore
       [Samples.comment "error" "security"; Samples.comment "warning" "style"]
     = Num 85.
Proof.
  assert (H : Forall (fun c => Engine.isValidComment c = true)
                [Samples.comment "error" "security";
                 Samples.comment "warning" "style"]).
  { repeat constructor. }
  split; [exact H |].
  destruct (score_is_clamped_penalty _ H) as [Hscore _]. exact Hscore.
Defined.

Lemma approval_rule_witness :
  Engine.shouldApprove (Samples.configWith None)
    [Samples.comment "warning" "style"] = true
  /\ Engine.shouldApprove (Samples.configWith None)
       [Samples.comment "warning" "style"; Samples.comment "error" "security"]
     = false.
Proof.
  destruct (approval_rule (Samples.configWith None)
              [Samples.comment "warning" "style"])
    as (_ & _ & _ & Hwarn).
  destruct (Hwarn eq_refl) as [Hyes Hno].
  { repeat constructor. }
  split; [exact Hyes |].
  exact (Hno (Samples.comment "error" "security")
           [Samples.comment "warning" "style"] [] eq_refl eq_refl).
Defined.

Lemma threshold_rule_witness :
  Spec.wellTyped (Samples.configWith (Some "medium"))
  /\ Engine.isValidComment (Samples.comment "info" "style") = true
  /\ Engine.validateAndFilterComments (Samples.configWith (Some "medium"))
       [Samples.comment "error" "security"; Samples.comment "info" "style"]
       "src/app.ts"
     = [Samples.comment "error" "security"].
Proof.
  assert (H : Spec.wellTyped (Samples.configWith (Some "medium"))).
  { intros t [= <-]. right. now left. }
  split; [exact H |]. split; [reflexivity |].
  destruct (threshold_rule _ (Samples.comment "info" "style") "info"
              H eq_refl eq_refl) as (_ & Hkeep & _).
  exact (Hkeep [Samples.comment "error" "security"] [] "src/app.ts").
Defined.

Lemma normalizer_contract_witness :
  Provider.parseReviewResponse
    (Samples.decodeOnly Samples.oneCommentJSON
       [Samples.comment "warning" "style"])
    ("Here is my review:" ++ nl ++ Provider.fenceOpen
     ++ Samples.oneCommentJSON ++ Provider.fenceClose ++ nl)
  = inr [Samples.comment "warning" "style"]
  /\ Provider.parseReviewResponse
       (Samples.decodeOnly Samples.oneCommentJSON
          [Samples.comment "warning" "style"])
       (Provider.fenceOpen ++ "[oops" ++ Provider.fenceClose)
     = inr [].
Proof.
  destruct (normalizer_contract
              (Samples.decodeOnly Samples.oneCommentJSON
                 [Samples.comment "warning" "style"]))
    as (Hfenced & Hfallback & _ & _).
  split.
  - exact (Hfenced ("Here is my review:" ++ nl) Samples.oneCommentJSON nl
             [Samples.comment "warning" "style"] eq_refl eq_refl eq_refl).
  - exact (Hfallback (Provider.fenceOpen ++ "[oops" ++ Provider.fenceClose)
             "[oops" (Error "Unexpected token in JSON") eq_refl eq_refl).
Defined.

Lemma shouldReview_policy_witness :
  Filter.shouldReview Filter.globMatch Filter.posixExtname
    (Filter.new (Some ["src/generated/**"]) None) "node_modules/x.js" = false
  /\ Filter.shouldReview Filter.globMatch Filter.posixExtname
       (Filter.new None None) "src/app.ts" = true
  /\ Filter.shouldReview Filter.globMatch Filter.posixExtname
       (Filter.new (Some ["src/generated/**"]) None) "src/generated/api.ts"
     = false.
Proof.
  destruct (shouldReview_policy Filter.globMatch Filter.posixExtname
              (Some ["src/generated/**"]) None "src/generated/api.ts")
    as (_ & _ & _ & Hnode & Happ & Huser).
  split; [exact (Hnode eq_refl) |].
  split.
  - apply Happ; [| reflexivity].
    intros g Hg. simpl in Hg.
    repeat (destruct Hg as [<- | Hg]; [reflexivity |]). contradiction.
  - apply Huser. exists "src/generated/**". split; [now left | reflexivity].
Defined.

Lemma no_reviewable_changes_witness :
  Engine.getChanges (Samples.hostOf Samples.imageDiff) "main" "feature"
  = inr [Change.mk "logo.png" ["x"] [] []
           [Hunk.mk (Num 1) (Num 1) (Num 1) (Num 1) ["+x"]]]
  /\ Engine.calls
       (Engine.reviewChanges Filter.globMatch Filter.posixExtname
          (Samples.hostOf Samples.imageDiff) (Samples.configWith None)
          "main" "feature" 0%nat)
     = [].
Proof.
  assert (H : Engine.getChanges (Samples.hostOf Samples.imageDiff)
                "main" "feature"
              = inr [Change.mk "logo.png" ["x"] [] []
                       [Hunk.mk (Num 1) (Num 1) (Num 1) (Num 1) ["+x"]]]).
  { vm_compute. reflexivity. }
  split; [exact H |].
  rewrite (no_reviewable_changes Filter.globMatch Filter.posixExtname
             (Samples.hostOf Samples.imageDiff) (Samples.configWith None)
             "main" "feature" 0%nat _ H eq_refl).
  reflexivity.
Defined.

Lemma failure_comment_bypasses_filter_witness :
  Engine.getChanges (Samples.hostOf Samples.sourceDiff) "main" "feature"
  = inr [Samples.sourceChange]
  /\ exists result more,
       Engine.outcome
         (Engine.reviewChanges Filter.globMatch Filter.posixExtname
            (Samples.hostOf Samples.sourceDiff)
            (Samples.configWith (Some "high")) "main" "feature" 0%nat)
       = inr result
       /\ Result.comments result
          = (Engine.failureComment Samples.sourceChange
               (Error "service unavailable") :: more)%list.
Proof.
  assert (H : Engine.getChanges (Samples.hostOf Samples.sourceDiff)
                "main" "feature" = inr [Samples.sourceChange]).
  { vm_compute. reflexivity. }
  split; [exact H |].
  destruct (failure_comment_bypasses_filter Filter.globMatch
              Filter.posixExtname (Samples.hostOf Samples.sourceDiff)
              (Samples.configWith (Some "high")) "main" "feature" 0%nat
              [Samples.sourceChange] [] [] Samples.sourceChange
              Samples.failing (Error "service unavailable")
              H eq_refl eq_refl eq_refl) as [Hin _].
  exact Hin.
Defined.

(** * Further properties of the code *)

(** ** Scoring *)

Lemma weightOf_known (c : ReviewComment) :
  Spec.knownSeverity c -> -10 <= Spec.weightOf c <= -1.
Proof.
  intros (s & Hs & Hin). unfold Spec.weightOf. rewrite Hs.
  destruct (severities_cases s Hin) as [-> | [-> | ->]]; simpl; vm_compute;
    split; discriminate.
Qed.

Lemma penalty_cons_known (c : ReviewComment) (cs : list ReviewComment) :
  Forall Spec.knownSeverity (c :: cs) -> Spec.penalty (c :: cs) <= -1.
Proof.
  intros H. inversion H as [| ? ? Hc Hcs]; subst.
  pose proof (weightOf_known c Hc). pose proof (penalty_nonpos cs).
  unfold Spec.penalty in *. simpl. lia.
Qed.

(** X1. One more error-severity comment lowers the score by ten, down to
    the floor of zero. *)
Theorem one_more_error_costs_ten (comments : list ReviewComment)
  (e : ReviewComment) :
  Forall Spec.knownSeverity comments ->
  Spec.hasSeverity "error" e ->
  exists s s',
    Engine.calculateScore comments = Num s
    /\ Engine.calculateScore (comments ++ [e]) = Num s'
    /\ s' = Z.max 0 (s - 10) /\ (0 < s -> s' < s).
Proof.
  intros Hknown He.
  assert (Hknown' : Forall Spec.knownSeverity (comments ++ [e])).
  { apply Forall_app. split; [exact Hknown |]. repeat constructor.
    exists "error". split; [exact He | simpl; auto]. }
  exists (Spec.clamp (100 + Spec.penalty comments) 0 100).
  exists (Spec.clamp (100 + Spec.penalty (comments ++ [e])) 0 100).
  split; [now apply calculateScore_known |].
  split; [now apply calculateScore_known |].
  destruct (score_monotone comments e _ _ Hknown He
              (calculateScore_known _ Hknown) (calculateScore_known _ Hknown'))
    as (H1 & H2 & _).
  now split.
Qed.

Lemma one_more_error_costs_ten_witness :
  Forall Spec.knownSeverity [Samples.comment "warning" "style"]
  /\ Spec.hasSeverity "error" (Samples.comment "error" "security")
  /\ exists s s',
       Engine.calculateScore [Samples.comment "warning" "style"] = Num s
       /\ Engine.calculateScore
            ([Samples.comment "warning" "style"]
             ++ [Samples.comment "error" "security"]) = Num s'
       /\ s' = Z.max 0 (s - 10) /\ (0 < s -> s' < s).
Proof.
  assert (H : Forall Spec.knownSeverity [Samples.comment "warning" "style"]).
  { repeat constructor. exists "warning". split; [reflexivity | simpl; auto]. }
  split; [exact H |]. split; [reflexivity |].
  exact (one_more_error_costs_ten _ (Samples.comment "error" "security")
           H eq_refl).
Defined.

(** X2. Only the empty list scores 100: every comment of a known
    severity costs at least one point. *)
Theorem full_score_iff_no_comment (comments : list ReviewComment) :
  Forall Spec.knownSeverity comments ->
  (Engine.calculateScore comments = Num 100 <-> comments = [])
  /\ (comments <> [] ->
      exists s, Engine.calculateScore comments = Num s /\ 0 <= s <= 99).
Proof.
  intros Hknown. rewrite (calculateScore_known _ Hknown).
  destruct comments as [| c cs].
  - split; [split; reflexivity | congruence].
  - pose proof (penalty_cons_known c cs Hknown) as Hp.
    split.
    + split; [| discriminate]. intros [= H]. unfold Spec.clamp in H. lia.
    + intros _. eexists. split; [reflexivity |]. unfold Spec.clamp. lia.
Qed.

Lemma full_score_iff_no_comment_witness :
  Forall Spec.knownSeverity [Samples.comment "info" "style"]
  /\ exists s,
       Engine.calculateScore [Samples.comment "info" "style"] = Num s
       /\ 0 <= s <= 99.
Proof.
  assert (H : Forall Spec.knownSeverity [Samples.comment "info" "style"]).
  { repeat constructor. exists "info". split; [reflexivity | simpl; auto]. }
  split; [exact H |].
  destruct (full_score_iff_no_comment _ H) as [_ Hlow].
  apply Hlow. discriminate.
Defined.

(** ** The category histogram *)

Lemma bump_known (f : string -> Z) (k0 : string) :
  In k0 Engine.categoryNames ->
  Engine.bump (map (fun k => (k, f k)) Engine.categoryNames) k0
  = map (fun k => (k, if String.eqb k k0 then f k + 1 else f k))
      Engine.categoryNames.
Proof.
  intros Hin. simpl in Hin.
  repeat (destruct Hin as [<- | Hin]; [reflexivity |]). contradiction.
Qed.

Lemma categorize_fold (f : string -> Z) (comments : list ReviewComment) :
  Forall Shape.knownCategory comments ->
  foldl (fun categories comment =>
           Engine.bump categories
             (default "undefined" (Comment.category comment)))
        (map (fun k => (k, f k)) Engine.categoryNames) comments
  = map (fun k => (k, f k + Shape.countCategory k comments))
      Engine.categoryNames.
Proof.
  intros H. revert f. induction H as [| c cs (k0 & Hk & Hin) _ IH]; intros f.
  - cbn [foldl]. apply map_ext. intros k. f_equal. unfold Shape.countCategory.
    simpl. lia.
  - cbn [foldl]. rewrite Hk.
    change (default "undefined" (Some k0)) with k0.
    rewrite (bump_known f k0 Hin), IH.
    apply map_ext. intros k. f_equal.
    unfold Shape.countCategory, Shape.hasCategory. simpl. rewrite Hk.
    rewrite (String.eqb_sym k0 k).
    destruct (String.eqb k k0); simpl length; lia.
Qed.

Lemma total_counts (comments : list ReviewComment) :
  Forall Shape.knownCategory comments ->
  Shape.total (map (fun k => (k, Shape.countCategory k comments))
                 Engine.categoryNames)
  = Z.of_nat (length comments).
Proof.
  intros H. induction H as [| c cs (k0 & Hk & Hin) _ IH].
  - reflexivity.
  - simpl length. rewrite Nat2Z.inj_succ, <- IH. clear IH.
    unfold Shape.total, Shape.countCategory, Shape.hasCategory.
    simpl. rewrite Hk. simpl in Hin.
    repeat (destruct Hin as [<- | Hin]; [simpl; lia |]). contradiction.
Qed.

Lemma categorize_known (comments : list ReviewComment) :
  Forall Shape.knownCategory comments ->
  Engine.categorizeComments comments
  = map (fun k => (k, Shape.countCategory k comments)) Engine.categoryNames.
Proof.
  intros H. unfold Engine.categorizeComments, Engine.noCategories.
  rewrite (categorize_fold (fun _ => 0) comments H).
  apply map_ext. intros k. f_equal.
Qed.

Lemma categorize_keys (comments : list ReviewComment) :
  Forall Shape.knownCategory comments ->
  map fst (Engine.categorizeComments comments) = Engine.categoryNames
  /\ Shape.total (Engine.categorizeComments comments)
     = Z.of_nat (length comments).
Proof.
  intros H. rewrite (categorize_known comments H). split.
  - rewrite map_map. simpl. reflexivity.
  - now apply total_counts.
Qed.

(** X3. On comments of known categories the histogram has the seven
    categories, in their fixed order, each with the number of comments of
    that category, and the counts add up to the number of comments. *)
Theorem histogram_counts (comments : list ReviewComment) :
  Forall Shape.knownCategory comments ->
  Engine.categorizeComments comments
  = map (fun k => (k, Shape.countCategory k comments)) Engine.categoryNames
  /\ map fst (Engine.categorizeComments comments) = Engine.categoryNames
  /\ Shape.total (Engine.categorizeComments comments)
     = Z.of_nat (length comments).
Proof.
  intros H. split; [now apply categorize_known | now apply categorize_keys].
Qed.

Lemma histogram_counts_witness :
  Forall Shape.knownCategory
    [Samples.comment "error" "security"; Samples.comment "info" "style";
     Samples.comment "warning" "security"]
  /\ Engine.categorizeComments
       [Samples.comment "error" "security"; Samples.comment "info" "style";
        Samples.comment "warning" "security"]
     = [ ("code-quality", 0); ("security", 2); ("performance", 0);
         ("maintainability", 0); ("style", 1); ("testing", 0);
         ("documentation", 0) ].
Proof.
  assert (H : Forall Shape.knownCategory
                [Samples.comment "error" "security";
                 Samples.comment "info" "style";
                 Samples.comment "warning" "security"]).
  { repeat constructor; eexists; (split; [reflexivity | simpl; auto 10]). }
  split; [exact H |].
  destruct (histogram_counts _ H) as [Heq _]. rewrite Heq. reflexivity.
Defined.

(** ** Validation *)

Lemma stamp_valid (filePath : string) (c : ReviewComment) :
  Engine.isValidComment (Engine.stamp filePath c) = Engine.isValidComment c.
Proof. reflexivity. Qed.

Lemma stamp_meets (config : ReviewConfig) (filePath : string)
  (c : ReviewComment) :
  Engine.meetsSeverityThreshold config (Engine.stamp filePath c)
  = Engine.meetsSeverityThreshold config c.
Proof. reflexivity. Qed.

Lemma orElse_idem (x : option string) (d : string) :
  orElse (Some (orElse x d)) d = orElse x d.
Proof. destruct x as [[| c s] |]; simpl; now destruct d. Qed.

Lemma stamp_idem (filePath : string) (c : ReviewComment) :
  Engine.stamp filePath (Engine.stamp filePath c) = Engine.stamp filePath c.
Proof.
  unfold Engine.stamp.
  cbn [Comment.file Comment.line Comment.message Comment.severity
       Comment.category Comment.suggestion].
  now rewrite orElse_idem.
Qed.

Lemma filter_all {A} (p : A -> bool) (l : list A) :
  Forall (fun x => p x = true) l -> List.filter p l = l.
Proof.
  induction 1 as [| x l Hx _ IH]; simpl; [reflexivity |].
  now rewrite Hx, IH.
Qed.

Lemma validated_shape (config : ReviewConfig) (comments : list ReviewComment)
  (filePath : string) :
  Forall (fun c => Engine.isValidComment c = true
                   /\ Engine.meetsSeverityThreshold config c = true
                   /\ exists c0, In c0 comments /\ c = Engine.stamp filePath c0)
    (Engine.validateAndFilterComments config comments filePath).
Proof.
  unfold Engine.validateAndFilterComments. apply List.Forall_forall.
  intros c Hin. apply in_map_iff in Hin as (c0 & <- & Hin).
  apply filter_In in Hin as [Hin Hmeets].
  apply filter_In in Hin as [Hin Hvalid].
  rewrite stamp_valid, stamp_meets. eauto.
Qed.

(** X4. Every comment that validation returns is valid, meets the
    threshold, and is a comment of the input with its file defaulted to
    the path of the change; the order is kept, nothing is added, and
    validating the result again changes nothing. *)
Theorem validation_filters_and_stamps (config : ReviewConfig)
  (comments : list ReviewComment) (filePath : string) :
  let kept := Engine.validateAndFilterComments config comments filePath in
  Forall (fun c => Engine.isValidComment c = true
                   /\ Engine.meetsSeverityThreshold config c = true
                   /\ exists c0, In c0 comments /\ c = Engine.stamp filePath c0)
    kept
  /\ (length kept <= length comments)%nat
  /\ (filePath <> "" -> Forall (fun c => truthy (Comment.file c) = true) kept)
  /\ Engine.validateAndFilterComments config kept filePath = kept.
Proof.
  intros kept. pose proof (validated_shape config comments filePath) as Hshape.
  fold kept in Hshape. split; [exact Hshape |]. split; [| split].
  - unfold kept, Engine.validateAndFilterComments.
    rewrite length_map.
    etransitivity; [apply List.filter_length_le |].
    apply List.filter_length_le.
  - intros Hpath. eapply Forall_impl; [exact Hshape |].
    intros c (_ & _ & c0 & _ & ->). simpl.
    destruct (Comment.file c0) as [[| a s] |]; simpl; try reflexivity;
      destruct filePath; congruence.
  - unfold Engine.validateAndFilterComments at 1.
    rewrite (filter_all Engine.isValidComment kept).
    + rewrite (filter_all (Engine.meetsSeverityThreshold config) kept).
      * unfold kept, Engine.validateAndFilterComments.
        rewrite map_map. apply map_ext. intros c. apply stamp_idem.
      * eapply Forall_impl; [exact Hshape |]. now intros c (_ & H & _).
    + eapply Forall_impl; [exact Hshape |]. now intros c (H & _).
Qed.

(** ** The provider factory *)

Section Factory.

Context {W : Type}.
Variable host : Engine.Host W.
Variable config : ReviewConfig.

Lemma truthy_Some (x : option string) :
  truthy x = true <-> exists s, x = Some s /\ s <> "".
Proof.
  destruct x as [[| c s] |]; simpl; split; try discriminate.
  - intros (s & [= <-] & H). congruence.
  - intros _. eexists. split; [reflexivity | discriminate].
  - intros (s' & [= <-] & _). reflexivity.
  - intros (s & [=] & _).
Qed.

(** X5. The factory yields a provider exactly when the configured name
    is openai or anthropic and the API key of that provider is set to a
    non-empty value in the environment; the provider is built from that
    key. In every other case it throws an [Error]. *)
Theorem create_succeeds_iff (provider : AIProvider W) :
  (Engine.create host config = inr provider <->
   exists key, key <> ""
     /\ ((Config.aiProvider config = "openai"
          /\ Engine.process_env host "OPENAI_API_KEY" = Some key
          /\ provider = Engine.OpenAIProvider host key)
         \/ (Config.aiProvider config = "anthropic"
             /\ Engine.process_env host "ANTHROPIC_API_KEY" = Some key
             /\ provider = Engine.AnthropicProvider host key)))
  /\ (forall thrown, Engine.create host config = inl thrown ->
        exists message, thrown = Error message).
Proof.
  unfold Engine.create, Engine.getApiKey. split.
  - split.
    + destruct (String.eqb (Config.aiProvider config) "openai") eqn:Ho.
      * apply String.eqb_eq in Ho.
        destruct (truthy (Engine.process_env host "OPENAI_API_KEY")) eqn:Hk;
          [| discriminate].
        apply truthy_Some in Hk as (key & Hkey & Hne). rewrite Hkey.
        simpl. intros [= <-]. exists key. split; [exact Hne |]. now left.
      * destruct (truthy (Engine.process_env host "ANTHROPIC_API_KEY")) eqn:Hk;
          [| discriminate].
        apply truthy_Some in Hk as (key & Hkey & Hne). rewrite Hkey. simpl.
        destruct (String.eqb (Config.aiProvider config) "anthropic") eqn:Ha;
          [| discriminate].
        apply String.eqb_eq in Ha. intros [= <-].
        exists key. split; [exact Hne |]. now right.
    + intros (key & Hne & [(Hp & Hkey & ->) | (Hp & Hkey & ->)]);
        rewrite Hp; simpl; rewrite Hkey;
        destruct key; [congruence | reflexivity | congruence | reflexivity].
  - intros thrown.
    destruct (String.eqb (Config.aiProvider config) "openai");
      destruct (truthy _); simpl;
      try destruct (String.eqb (Config.aiProvider config) "anthropic");
      intros [= <-]; eauto.
Qed.

End Factory.

Lemma validation_filters_and_stamps_witness :
  Engine.validateAndFilterComments (Samples.configWith (Some "medium"))
    (Engine.validateAndFilterComments (Samples.configWith (Some "medium"))
       [Comment.mk None None (Some "m") (Some "error") (Some "style") None;
        Samples.comment "info" "style"] "src/app.ts") "src/app.ts"
  = Engine.validateAndFilterComments (Samples.configWith (Some "medium"))
      [Comment.mk None None (Some "m") (Some "error") (Some "style") None;
       Samples.comment "info" "style"] "src/app.ts"
  /\ Forall (fun c => truthy (Comment.file c) = true)
       (Engine.validateAndFilterComments (Samples.configWith (Some "medium"))
          [Comment.mk None None (Some "m") (Some "error") (Some "style") None;
           Samples.comment "info" "style"] "src/app.ts").
Proof.
  destruct (validation_filters_and_stamps (Samples.configWith (Some "medium"))
              [Comment.mk None None (Some "m") (Some "error") (Some "style")
                 None;
               Samples.comment "info" "style"] "src/app.ts")
    as (_ & _ & Hfile & Hidem).
  split; [exact Hidem | apply Hfile; discriminate].
Defined.

Lemma create_succeeds_iff_witness :
  Engine.create (Samples.hostOf Samples.sourceDiff) (Samples.configWith None)
  = inr Samples.failing
  /\ exists message,
       Engine.create Samples2.noKeys (Samples.configWith None)
       = inl (Error message).
Proof.
  split.
  - apply (create_succeeds_iff (Samples.hostOf Samples.sourceDiff)
             (Samples.configWith None) Samples.failing).
    exists "key". split; [discriminate |]. left. repeat split.
  - destruct (create_succeeds_iff Samples2.noKeys (Samples.configWith None)
                Samples.failing) as [_ Hthrow].
    destruct (Hthrow _ eq_refl) as (message & Hm).
    exists message. rewrite <- Hm. reflexivity.
Defined.

(** ** Runs of the engine *)

Section RunShape.

Context {W : Type}.
Variable minimatch : string -> string -> bool.
Variable extname : string -> string.
Variable host : Engine.Host W.
Variable config : ReviewConfig.
Variable provider : AIProvider W.
Variables reviewPrompt codingStandards : option string.

Local Abbreviation step :=
  (Engine.reviewOne extname config provider reviewPrompt codingStandards).

Lemma failureComment_valid (change : CodeChange) (error : Thrown) :
  Engine.isValidComment (Engine.failureComment change error) = true.
Proof. reflexivity. Qed.

(** The loop keeps the comments valid and makes one call per change. *)
Lemma loop_invariant (changes : list CodeChange) (st : Engine.Loop W) :
  Forall (fun c => Engine.isValidComment c = true) (Engine.allComments st) ->
  Forall (fun c => Engine.isValidComment c = true)
    (Engine.allComments (foldl step st changes))
  /\ Engine.loopCalls (foldl step st changes)
     = (Engine.loopCalls st
        ++ map (fun change =>
                  (Engine.buildCodeContext extname change,
                   Engine.buildPrompt reviewPrompt codingStandards))
             changes)%list.
Proof.
  revert st. induction changes as [| change changes IH]; intros st Hvalid.
  - simpl. now rewrite app_nil_r.
  - cbn [foldl map].
    assert (Hstep :
      Forall (fun c => Engine.isValidComment c = true)
        (Engine.allComments (step st change))
      /\ Engine.loopCalls (step st change)
         = (Engine.loopCalls st
            ++ [(Engine.buildCodeContext extname change,
                 Engine.buildPrompt reviewPrompt codingStandards)])%list).
    { unfold Engine.reviewOne.
      destruct (AI.review provider _ _ config (Engine.loopWorld st))
        as [[error | comments] w']; simpl; (split; [| reflexivity]);
        apply Forall_app; (split; [exact Hvalid |]).
      - repeat constructor.
      - eapply Forall_impl;
          [apply (validated_shape config comments (Change.file change)) |].
        now intros c (H & _). }
    destruct Hstep as [Hv Hc].
    destruct (IH (step st change) Hv) as [IHv IHc].
    split; [exact IHv |]. rewrite IHc, Hc, <- app_assoc. reflexivity.
Qed.

End RunShape.

Lemma valid_category (c : ReviewComment) :
  Engine.isValidComment c = true -> Shape.knownCategory c.
Proof.
  unfold Engine.isValidComment. rewrite !andb_true_iff.
  intros [_ H]. now apply includesO_Some.
Qed.

(** X6. Whatever the providers answer, a run that returns a result
    returns one whose comments are all valid, whose score is a number
    between 0 and 100 given by the weights, whose histogram has exactly
    the seven categories with counts that add up to the number of
    comments, and whose approval is the approval rule on its comments. *)
Theorem result_is_well_formed {W : Type}
  (minimatch : string -> string -> bool) (extname : string -> string)
  (host : Engine.Host W) (config : ReviewConfig) (baseSha headSha : string)
  (w : W) (result : ReviewResult) :
  Engine.outcome
    (Engine.reviewChanges minimatch extname host config baseSha headSha w)
  = inr result ->
  Forall (fun c => Engine.isValidComment c = true) (Result.comments result)
  /\ Result.score result
     = Num (Spec.clamp (100 + Spec.penalty (Result.comments result)) 0 100)
  /\ (exists s, Result.score result = Num s /\ 0 <= s <= 100)
  /\ map fst (Result.categories result) = Engine.categoryNames
  /\ Shape.total (Result.categories result)
     = Z.of_nat (length (Result.comments result))
  /\ Result.approved result
     = Engine.shouldApprove config (Result.comments result).
Proof.
  unfold Engine.reviewChanges.
  destruct (Engine.getChanges host baseSha headSha) as [e | changes];
    [discriminate |].
  destruct (length _ =? 0)%nat.
  - intros [= <-]. cbn [Engine.createEmptyResult Result.comments
      Result.score Result.categories Result.approved].
    split; [constructor |]. split; [reflexivity |].
    split; [exists 100; split; [reflexivity | lia] |].
    split; [reflexivity |]. split; [reflexivity |].
    unfold Engine.shouldApprove. now destruct (default false _).
  - destruct (Engine.create host config) as [e | provider]; [discriminate |].
    cbn [Engine.outcome]. intros [= <-].
    set (st := foldl _ _ _).
    assert (Hvalid : Forall (fun c => Engine.isValidComment c = true)
                       (Engine.allComments st)).
    { apply loop_invariant. constructor. }
    assert (Hsev : Forall Spec.knownSeverity (Engine.allComments st)).
    { eapply Forall_impl; [exact Hvalid |]. intros c. apply valid_severity. }
    assert (Hcat : Forall Shape.knownCategory (Engine.allComments st)).
    { eapply Forall_impl; [exact Hvalid |]. intros c. apply valid_category. }
    unfold Engine.buildResult.
    cbn [Result.comments Result.score Result.categories Result.approved].
    destruct (categorize_keys _ Hcat) as (Hkeys & Htotal).
    split; [exact Hvalid |].
    split; [now apply calculateScore_known |].
    split; [eexists; split; [now apply calculateScore_known
                            | apply clamp_range] |].
    split; [exact Hkeys |]. split; [exact Htotal | reflexivity].
Qed.

Lemma result_is_well_formed_witness :
  exists result,
    Engine.outcome
      (Engine.reviewChanges Filter.globMatch Filter.posixExtname
         (Samples.hostOf Samples.sourceDiff) (Samples.configWith None)
         "main" "feature" 0%nat) = inr result
    /\ Result.score result
       = Num (Spec.clamp (100 + Spec.penalty (Result.comments result)) 0 100)
    /\ map fst (Result.categories result) = Engine.categoryNames.
Proof.
  eexists. split; [vm_compute; reflexivity |].
  destruct (result_is_well_formed Filter.globMatch Filter.posixExtname
              (Samples.hostOf Samples.sourceDiff) (Samples.configWith None)
              "main" "feature" 0%nat _ eq_refl)
    as (_ & Hscore & _ & Hkeys & _).
  split; [exact Hscore | exact Hkeys].
Defined.

(** X7. A run that reads the diff and, when there is something to
    review, obtains a provider ends with a result and has made exactly
    one provider call for each reviewable change, in the order of the
    diff, each with the code context of that change and the composed
    prompt: the failure of a call does not stop the calls after it. *)
Theorem one_call_per_reviewable_change {W : Type}
  (minimatch : string -> string -> bool) (extname : string -> string)
  (host : Engine.Host W) (config : ReviewConfig) (baseSha headSha : string)
  (w : W) (changes : list CodeChange) :
  let reviewable :=
    Engine.filterReviewableChanges minimatch extname config changes in
  let prompt :=
    Engine.buildPrompt
      (Engine.loadReviewPrompt host (Config.reviewPromptPath config))
      (Engine.loadCodingStandards host (Config.codingStandardsPath config)) in
  let run :=
    Engine.reviewChanges minimatch extname host config baseSha headSha w in
  Engine.getChanges host baseSha headSha = inr changes ->
  (reviewable = [] \/ exists provider, Engine.create host config = inr provider) ->
  (exists result, Engine.outcome run = inr result)
  /\ Engine.calls run
     = map (fun change => (Engine.buildCodeContext extname change, prompt))
         reviewable.
Proof.
  intros reviewable prompt run Hchanges Hprovider. subst run.
  unfold Engine.reviewChanges. rewrite Hchanges. fold reviewable.
  destruct reviewable as [| change rest] eqn:Hrev.
  - simpl. split; [eauto | reflexivity].
  - destruct Hprovider as [[=] | (provider & ->)].
    cbn [length Nat.eqb Engine.outcome Engine.calls].
    split; [eauto |].
    destruct (loop_invariant extname config provider
                (Engine.loadReviewPrompt host (Config.reviewPromptPath config))
                (Engine.loadCodingStandards host
                   (Config.codingStandardsPath config))
                (change :: rest) (Engine.mkLoop [] w []))
      as [_ Hcalls]; [constructor |].
    exact Hcalls.
Qed.

Lemma one_call_per_reviewable_change_witness :
  Engine.getChanges (Samples.hostOf Samples.sourceDiff) "main" "feature"
  = inr [Samples.sourceChange]
  /\ length
       (Engine.calls
          (Engine.reviewChanges Filter.globMatch Filter.posixExtname
             (Samples.hostOf Samples.sourceDiff) (Samples.configWith None)
             "main" "feature" 0%nat)) = 1%nat.
Proof.
  assert (H : Engine.getChanges (Samples.hostOf Samples.sourceDiff)
                "main" "feature" = inr [Samples.sourceChange]).
  { vm_compute. reflexivity. }
  split; [exact H |].
  destruct (one_call_per_reviewable_change Filter.globMatch
              Filter.posixExtname (Samples.hostOf Samples.sourceDiff)
              (Samples.configWith None) "main" "feature" 0%nat
              [Samples.sourceChange] H)
    as [_ Hcalls].
  { right. exists Samples.failing. reflexivity. }
  rewrite Hcalls. reflexivity.
Defined.

(** X8. A run throws only when the diff cannot be read or, with changes
    to review, when no provider can be created. What it throws is an
    [Error] whose message starts with [Review failed: ] and carries the
    message of the cause; no provider call has been made and the world
    is as it was. *)
Theorem run_failures {W : Type}
  (minimatch : string -> string -> bool) (extname : string -> string)
  (host : Engine.Host W) (config : ReviewConfig) (baseSha headSha : string)
  (w : W) (thrown : Thrown) :
  let run :=
    Engine.reviewChanges minimatch extname host config baseSha headSha w in
  Engine.outcome run = inl thrown ->
  Engine.calls run = [] /\ Engine.world run = w
  /\ ((exists cause,
         Engine.git_diff host [baseSha ++ "..." ++ headSha; "--no-color"]
         = inl cause
         /\ thrown = Error ("Review failed: Failed to get git changes: "
                            ++ errorMessage cause))
      \/ (exists changes cause,
            Engine.getChanges host baseSha headSha = inr changes
            /\ Engine.filterReviewableChanges minimatch extname config changes
               <> []
            /\ Engine.create host config = inl cause
            /\ thrown = Error ("Review failed: " ++ errorMessage cause))).
Proof.
  intros run. subst run. unfold Engine.reviewChanges.
  destruct (Engine.getChanges host baseSha headSha) as [e | changes] eqn:Hget.
  - cbn [Engine.outcome Engine.calls Engine.world]. intros [= <-].
    split; [reflexivity |]. split; [reflexivity |]. left.
    unfold Engine.getChanges in Hget.
    destruct (Engine.git_diff host _) as [cause | diff]; [| discriminate].
    exists cause. split; [reflexivity |].
    simpl in Hget. injection Hget as <-. reflexivity.
  - destruct (Engine.filterReviewableChanges minimatch extname config changes)
      as [| change rest] eqn:Hrev; [discriminate |].
    cbn [length Nat.eqb].
    destruct (Engine.create host config) as [cause | provider] eqn:Hcreate;
      [| discriminate].
    cbn [Engine.outcome Engine.calls Engine.world]. intros [= <-].
    split; [reflexivity |]. split; [reflexivity |]. right.
    exists changes, cause. repeat split; congruence.
Qed.

Lemma run_failures_witness :
  Engine.outcome
    (Engine.reviewChanges Filter.globMatch Filter.posixExtname
       Samples2.noRepository (Samples.configWith None) "main" "feature" 0%nat)
  = inl (Error ("Review failed: Failed to get git changes: "
                ++ "not a git repository"))
  /\ Engine.calls
       (Engine.reviewChanges Filter.globMatch Filter.posixExtname
          Samples2.noRepository (Samples.configWith None)
          "main" "feature" 0%nat) = [].
Proof.
  split; [reflexivity |].
  destruct (run_failures Filter.globMatch Filter.posixExtname
              Samples2.noRepository (Samples.configWith None)
              "main" "feature" 0%nat _ eq_refl) as [Hcalls _].
  exact Hcalls.
Defined.

(** ** Approval *)

(** X9. The auto-approve flag has no effect: two configurations with
    the same requireApprovalFor list take the same decision on every
    comment list, and the empty list is approved under every
    configuration. *)
Theorem autoApprove_is_inert (config config' : ReviewConfig)
  (comments : list ReviewComment) :
  Config.requireApprovalFor config = Config.requireApprovalFor config' ->
  Engine.shouldApprove config comments = Engine.shouldApprove config' comments
  /\ Engine.shouldApprove config [] = true.
Proof.
  intros Hreq.
  assert (Hiff : Engine.shouldApprove config comments = true
                 <-> Engine.shouldApprove config' comments = true).
  { rewrite !shouldApprove_iff. unfold Spec.blocks, Spec.blockingSeverities.
    now rewrite Hreq. }
  split.
  - destruct (Engine.shouldApprove config comments),
      (Engine.shouldApprove config' comments); try reflexivity;
      destruct Hiff as [H1 H2]; [now rewrite H1 | now rewrite H2].
  - apply shouldApprove_iff. constructor.
Qed.

Lemma autoApprove_is_inert_witness :
  Engine.shouldApprove
    (Config.mk "openai" None None None None None None (Some true)
       (Some ["error"]))
    [Samples.comment "error" "security"]
  = Engine.shouldApprove (Samples.configWith None)
      [Samples.comment "error" "security"].
Proof.
  destruct (autoApprove_is_inert
              (Config.mk "openai" None None None None None None (Some true)
                 (Some ["error"]))
              (Samples.configWith None)
              [Samples.comment "error" "security"] eq_refl) as [H _].
  exact H.
Defined.

(** ** Loaded configurations *)

Lemma orElse_nonempty (x : option string) (d : string) :
  d <> "" -> orElse x d <> "".
Proof. destruct x as [[| c s] |]; simpl; congruence. Qed.

(** X10. A configuration built by the loader always carries a non-empty
    threshold, the configured one or [medium], so the aggregator never
    falls back to [low] on it. Without a configured threshold a valid
    comment is kept exactly when its severity is not [info]. *)
Theorem loaded_threshold (partial : Loader.PartialConfig)
  (comment : ReviewComment) :
  let config := Loader.mergeWithDefaults partial in
  let threshold := orElse (Loader.severityThreshold partial) "medium" in
  Config.severityThreshold config = Some threshold
  /\ threshold <> ""
  /\ Engine.meetsSeverityThreshold config comment
     = geq (Comment.severity comment ≫= get Engine.severityOrder)
           (get Engine.thresholdOrder threshold)
  /\ (truthy (Loader.severityThreshold partial) = false ->
      Engine.isValidComment comment = true ->
      (Engine.meetsSeverityThreshold config comment = true
       <-> Comment.severity comment <> Some "info")).
Proof.
  intros config threshold.
  assert (Hne : threshold <> "") by (apply orElse_nonempty; discriminate).
  assert (Hmeets : Engine.meetsSeverityThreshold config comment
                   = geq (Comment.severity comment ≫= get Engine.severityOrder)
                         (get Engine.thresholdOrder threshold)).
  { unfold Engine.meetsSeverityThreshold, config, Loader.mergeWithDefaults.
    cbn [Config.severityThreshold]. fold threshold.
    destruct threshold; [congruence | reflexivity]. }
  split; [reflexivity |]. split; [exact Hne |]. split; [exact Hmeets |].
  intros Hnone Hvalid. rewrite Hmeets.
  assert (threshold = "medium") as ->.
  { unfold threshold.
    destruct (Loader.severityThreshold partial) as [[| c s] |];
      simpl in *; congruence. }
  destruct (valid_severity comment Hvalid) as (s & Hs & Hin). rewrite Hs.
  destruct (severities_cases s Hin) as [-> | [-> | ->]]; vm_compute;
    split; intros H; try discriminate; try reflexivity;
    exfalso; apply H; reflexivity.
Qed.

Lemma loaded_threshold_witness :
  Engine.validateAndFilterComments (Loader.mergeWithDefaults Loader.empty)
    [Samples.comment "info" "style"; Samples.comment "warning" "style"]
    "src/app.ts"
  = [Samples.comment "warning" "style"]
  /\ (Engine.meetsSeverityThreshold (Loader.mergeWithDefaults Loader.empty)
        (Samples.comment "info" "style") = true
      <-> Comment.severity (Samples.comment "info" "style") <> Some "info").
Proof.
  split; [reflexivity |].
  destruct (loaded_threshold Loader.empty (Samples.comment "info" "style"))
    as (_ & _ & _ & H).
  exact (H eq_refl eq_refl).
Defined.

(** ** Parsed changes *)

Lemma isDigit_cases (c : ascii) :
  isDigit c = true ->
  In c ["0"; "1"; "2"; "3"; "4"; "5"; "6"; "7"; "8"; "9"]%char.
Proof.
  destruct c as [[] [] [] [] [] [] [] []]; vm_compute; intros H;
    try discriminate H; auto 12.
Qed.

Ltac digit_cases c H :=
  let Hin := fresh "Hin" in
  pose proof (isDigit_cases c H) as Hin; simpl in Hin;
  repeat (destruct Hin as [<- | Hin]; [| try contradiction]).

Lemma spanDigits_digits (s : string) :
  Shape.isDigits (fst (spanDigits s)) = true.
Proof.
  induction s as [| c s IH]; [reflexivity |]. simpl.
  destruct (isDigit c) eqn:Hc; [| reflexivity].
  destruct (spanDigits s) as [d r]. simpl in *. now rewrite Hc, IH.
Qed.

Lemma readDigits_value (s : string) (a : Z) :
  Shape.isDigits s = true ->
  readDigits 10 s (Some a) = Some (Shape.valueOf a s).
Proof.
  revert a. induction s as [| c s IH]; intros a H; [reflexivity |].
  simpl in H. apply andb_true_iff in H as [Hc Hs].
  cbn [readDigits Shape.valueOf].
  assert (Hd : digitValue 10 c = Some (Z.of_nat (nat_of_ascii c) - 48)).
  { digit_cases c Hc; reflexivity. }
  rewrite Hd. cbn [default from_option id]. now apply IH.
Qed.

Lemma valueOf_nonneg (s : string) (a : Z) :
  Shape.isDigits s = true -> 0 <= a -> 0 <= Shape.valueOf a s.
Proof.
  revert a. induction s as [| c s IH]; intros a H Ha; [exact Ha |].
  simpl in H. apply andb_true_iff in H as [Hc Hs]. cbn [Shape.valueOf].
  apply IH; [exact Hs |].
  assert (48 <= Z.of_nat (nat_of_ascii c)); [| lia].
  digit_cases c Hc; vm_compute; discriminate.
Qed.

(** [parseInt] on a non-empty string of digits is its decimal value. *)
Lemma parseInt_digits (s : string) :
  Shape.isDigits s = true -> s <> "" ->
  parseInt s = Num (Shape.valueOf 0 s).
Proof.
  destruct s as [| c s]; [congruence |]. intros H _.
  pose proof H as H'. simpl in H'. apply andb_true_iff in H' as [Hc Hs].
  unfold parseInt.
  assert (Htrim : trimStart (String c s) = String c s).
  { digit_cases c Hc; reflexivity. }
  rewrite Htrim.
  assert (Hsign : match String c s with
                  | String "-" r => (-1, r)
                  | String "+" r => (1, r)
                  | _ => (1, String c s)
                  end = (1, String c s)).
  { digit_cases c Hc; reflexivity. }
  rewrite Hsign.
  assert (Hradix : String.prefix "0x" (String c s)
                   || String.prefix "0X" (String c s) = false).
  { change (startsWith (String c s) "0x" || startsWith (String c s) "0X" = false).
    rewrite !startsWith_cons.
    destruct (Ascii.eqb "0" c); [| reflexivity].
    destruct s as [| c2 s]; [reflexivity |].
    simpl in Hs. apply andb_true_iff in Hs as [Hc2 _].
    digit_cases c2 Hc2; reflexivity. }
  rewrite Hradix.
  assert (Hread : readDigits 10 (String c s) None
                  = Some (Shape.valueOf 0 (String c s))).
  { cbn [readDigits Shape.valueOf].
    assert (Hd : digitValue 10 c = Some (Z.of_nat (nat_of_ascii c) - 48)).
    { digit_cases c Hc; reflexivity. }
    rewrite Hd. cbn [default from_option id]. now apply readDigits_value. }
  rewrite Hread. f_equal. lia.
Qed.

Lemma parseInt_digits_nonneg (s : string) :
  Shape.isDigits s = true -> s <> "" ->
  exists n, parseInt s = Num n /\ 0 <= n.
Proof.
  intros H Hne. exists (Shape.valueOf 0 s).
  split; [now apply parseInt_digits | apply valueOf_nonneg; [exact H | lia]].
Qed.

Lemma optCount_group (s : string) (g : option string) (r : string) :
  Git.optCount s = (g, r) -> forall d, g = Some d -> Shape.digitGroup d.
Proof.
  unfold Git.optCount. destruct s as [| c s]; [now intros [= <- _] |].
  destruct (Ascii.eqb c ",") eqn:Hc.
  - apply Ascii.eqb_eq in Hc. subst c.
    pose proof (spanDigits_digits s) as Hd.
    destruct (spanDigits s) as [[| a d'] r']; simpl in Hd.
    + now intros [= <- _].
    + intros [= <- _] d [= <-]. split; [exact Hd | discriminate].
  - assert (Hother : Git.optCount (String c s) = (None, String c s)).
    { unfold Git.optCount.
      destruct c as [[] [] [] [] [] [] [] []]; try reflexivity.
      discriminate Hc. }
    unfold Git.optCount in Hother. rewrite Hother. now intros [= <- _].
Qed.

Lemma hunkHeaderAt_groups (s : string) (g1 g3 : string)
  (g2 g4 : option string) :
  Git.hunkHeaderAt s = Some (g1, g2, g3, g4) ->
  Shape.digitGroup g1 /\ Shape.digitGroup g3
  /\ (forall d, g2 = Some d -> Shape.digitGroup d)
  /\ (forall d, g4 = Some d -> Shape.digitGroup d).
Proof.
  unfold Git.hunkHeaderAt.
  destruct (expect "@@ -" s) as [r1 |]; [| discriminate].
  cbn [mbind option_bind].
  pose proof (spanDigits_digits r1) as Hd1.
  destruct (spanDigits r1) as [d1 r2]. simpl in Hd1.
  destruct (String.eqb d1 "") eqn:He1; [discriminate |].
  apply String.eqb_neq in He1.
  destruct (Git.optCount r2) as [o2 r3] eqn:Ho2.
  destruct (expect " +" r3) as [r4 |]; [| discriminate].
  cbn [mbind option_bind].
  pose proof (spanDigits_digits r4) as Hd3.
  destruct (spanDigits r4) as [d3 r5]. simpl in Hd3.
  destruct (String.eqb d3 "") eqn:He3; [discriminate |].
  apply String.eqb_neq in He3.
  destruct (Git.optCount r5) as [o4 r6] eqn:Ho4.
  destruct (expect " @@" r6) as [r7 |]; [| discriminate].
  cbn [mbind option_bind]. intros [= <- <- <- <-].
  split; [now split |]. split; [now split |].
  split; intros d Hd;
    [exact (optCount_group _ _ _ Ho2 d Hd) | exact (optCount_group _ _ _ Ho4 d Hd)].
Qed.

Lemma hunkMatch_groups (s : string) (g1 g3 : string) (g2 g4 : option string) :
  Git.hunkMatch s = Some (g1, g2, g3, g4) ->
  Shape.digitGroup g1 /\ Shape.digitGroup g3
  /\ (forall d, g2 = Some d -> Shape.digitGroup d)
  /\ (forall d, g4 = Some d -> Shape.digitGroup d).
Proof.
  induction s as [| c s IH]; cbn [Git.hunkMatch];
    destruct (Git.hunkHeaderAt _) as [[[[h1 h2] h3] h4] |] eqn:Hat.
  - intros [= <- <- <- <-]. now apply hunkHeaderAt_groups in Hat.
  - discriminate.
  - intros [= <- <- <- <-]. now apply hunkHeaderAt_groups in Hat.
  - exact IH.
Qed.

Lemma orElse_group (g : option string) :
  (forall d, g = Some d -> Shape.digitGroup d) -> Shape.digitGroup (orElse g "1").
Proof.
  intros H. destruct g as [d |]; [| split; [reflexivity | discriminate]].
  destruct (H d eq_refl) as [Hd Hne].
  destruct d; [congruence |]. now split.
Qed.

Lemma newHunk_numeric (line : string)
  (m : string * option string * string * option string) :
  Git.hunkMatch line = Some m -> Shape.numericHunk (Git.newHunk m).
Proof.
  destruct m as [[[g1 g2] g3] g4]. intros H.
  destruct (hunkMatch_groups _ _ _ _ _ H) as ([H1 N1] & [H3 N3] & H2 & H4).
  destruct (orElse_group g2 H2) as [H2' N2].
  destruct (orElse_group g4 H4) as [H4' N4].
  destruct (parseInt_digits_nonneg g1 H1 N1) as (a & Ha & Ha').
  destruct (parseInt_digits_nonneg _ H2' N2) as (b & Hb & Hb').
  destruct (parseInt_digits_nonneg g3 H3 N3) as (c & Hc & Hc').
  destruct (parseInt_digits_nonneg _ H4' N4) as (d & Hd & Hd').
  exists a, b, c, d. cbn [Git.newHunk Hunk.oldStart Hunk.oldLines
    Hunk.newStart Hunk.newLines]. repeat split; assumption.
Qed.

Lemma pushLine_numeric (line : string) (hk : GitHunk) :
  Shape.numericHunk hk -> Shape.numericHunk (Git.pushLine line hk).
Proof. intros H. exact H. Qed.

Lemma Forall_alter_list {A} (P : A -> Prop) (f : A -> A) (i : nat)
  (l : list A) :
  Forall P l -> (forall x, P x -> P (f x)) -> Forall P (alter f i l).
Proof.
  intros H Hf. apply Forall_alter; auto.
Qed.

Lemma scanOK_init : Shape.scanOK Git.initScan.
Proof.
  unfold Shape.scanOK. simpl. repeat split; try constructor.
  - intros h [=].
  - intros [h [=]].
Qed.

Lemma scanOK_push (st : Git.Scan) :
  Shape.scanOK st -> Shape.scanOK (Git.pushCurrent st).
Proof.
  intros (Hrefs & Hcur & Hnum & Hno & Hnone & Hin). unfold Git.pushCurrent.
  destruct (Git.currentHunk st) as [h |] eqn:E.
  - unfold Shape.scanOK.
    cbn [Git.hunks Git.heap Git.currentHunk Git.inHunk].
    split; [apply Forall_app; split; [exact Hrefs | repeat constructor; auto] |].
    split; [intros h' [= <-]; auto |]. split; [exact Hnum |].
    split; [exact Hno |].
    split; [discriminate | intros _; apply Hin; eauto].
  - unfold Shape.scanOK. rewrite E. repeat split; auto; apply Hnone; auto.
Qed.

Lemma scanOK_step (st : Git.Scan) (line : string) :
  Shape.scanOK st -> Shape.scanOK (Git.scanLine st line).
Proof.
  intros Hok. unfold Git.scanLine.
  destruct (startsWith line "@@") eqn:Hat.
  - pose proof (scanOK_push st Hok) as (Hrefs & Hcur & Hnum & Hno & Hnone & Hin).
    destruct (Git.hunkMatch line) as [m |] eqn:Hm; [| now apply scanOK_push].
    unfold Shape.scanOK.
    cbn [Git.hunks Git.heap Git.currentHunk Git.inHunk].
    rewrite length_app. simpl length.
    split; [eapply Forall_impl; [exact Hrefs | simpl; intros; lia] |].
    split; [intros h [= <-]; lia |].
    split; [apply Forall_app; split; [exact Hnum |]; repeat constructor;
            now apply (newHunk_numeric line) |].
    split; [apply Forall_app; split; [exact Hno |]; repeat constructor;
            destruct m as [[[? ?] ?] ?]; constructor |].
    split; [discriminate | reflexivity].
  - pose proof Hok as (Hrefs & Hcur & Hnum & Hno & Hnone & Hin).
    destruct (Git.inHunk st) eqn:Ein;
      destruct (Git.currentHunk st) as [h |] eqn:Ecur;
      try exact Hok.
    assert (Hok' : forall a d c,
      Shape.scanOK
        (Git.mkScan a d c (Git.hunks st)
           (alter (Git.pushLine line) h (Git.heap st)) (Some h) true)).
    { intros a d c. unfold Shape.scanOK.
      cbn [Git.hunks Git.heap Git.currentHunk Git.inHunk].
      rewrite length_alter.
      split; [exact Hrefs |]. split; [exact Hcur |].
      split; [apply Forall_alter_list; [exact Hnum | auto] |].
      split; [apply Forall_alter_list; [exact Hno |] |].
      - intros hk Hhk. unfold Shape.noHeaderInside, Git.pushLine.
        cbn [Hunk.lines]. apply Forall_app. split; [exact Hhk |].
        repeat constructor. exact Hat.
      - split; [discriminate | reflexivity]. }
    repeat match goal with
           | |- context [if ?b then _ else _] => destruct b
           end; apply Hok'.
Qed.

Lemma scanOK_fold (lines : list string) (st : Git.Scan) :
  Shape.scanOK st -> Shape.scanOK (foldl Git.scanLine st lines).
Proof.
  revert st. induction lines as [| l lines IH]; intros st H; [exact H |].
  simpl. apply IH. now apply scanOK_step.
Qed.

Lemma content_keeps_current (st : Git.Scan) (line : string) :
  startsWith line "@@" = false ->
  Git.currentHunk (Git.scanLine st line) = Git.currentHunk st.
Proof.
  intros Hat. unfold Git.scanLine. rewrite Hat.
  destruct (Git.inHunk st) eqn:Ein, (Git.currentHunk st) eqn:Ecur;
    rewrite ?Ecur; try reflexivity.
  cbv zeta.
  destruct (startsWith line "+" && _); [reflexivity |].
  destruct (startsWith line "-" && _); [reflexivity |].
  destruct (startsWith line " "); reflexivity.
Qed.

Lemma push_keeps_current (st : Git.Scan) :
  Git.currentHunk (Git.pushCurrent st) = Git.currentHunk st.
Proof.
  unfold Git.pushCurrent.
  destruct (Git.currentHunk st) eqn:E; [reflexivity | exact E].
Qed.

Lemma current_step (st : Git.Scan) (line : string) :
  is_Some (Git.currentHunk (Git.scanLine st line))
  <-> is_Some (Git.currentHunk st) \/ Shape.opensHunk line = true.
Proof.
  unfold Shape.opensHunk. destruct (startsWith line "@@") eqn:Hat.
  - unfold Git.scanLine. rewrite Hat.
    destruct (Git.hunkMatch line) as [m |] eqn:Hm.
    + rewrite bool_decide_eq_true_2 by eauto.
      cbn [Git.currentHunk]. split; [intros _; now right | eauto].
    + rewrite bool_decide_eq_false_2 by (intros [x [=]]).
      rewrite push_keeps_current. simpl. intuition discriminate.
  - rewrite (content_keeps_current st line Hat). simpl.
    intuition discriminate.
Qed.

(** A hunk is current exactly when a line so far has opened one. *)
Lemma current_iff_opened (lines : list string) (st : Git.Scan) :
  is_Some (Git.currentHunk (foldl Git.scanLine st lines))
  <-> is_Some (Git.currentHunk st)
      \/ Exists (fun l => Shape.opensHunk l = true) lines.
Proof.
  revert st. induction lines as [| l lines IH]; intros st.
  - simpl. split; [auto |]. intros [H | H]; [exact H | inversion H].
  - cbn [foldl]. rewrite IH, Exists_cons, current_step. tauto.
Qed.




Lemma pushed_nonempty (st : Git.Scan) :
  Shape.scanOK st ->
  (Git.hunks (Git.pushCurrent st) <> [] <-> is_Some (Git.currentHunk st)).
Proof.
  intros (_ & _ & _ & _ & Hnone & _). unfold Git.pushCurrent.
  destruct (Git.currentHunk st) as [h |] eqn:E.
  - cbn [Git.hunks]. split; [eauto |]. intros _ H.
    now apply app_eq_nil in H as [_ [=]].
  - destruct (Hnone eq_refl) as [-> _]. split; [congruence |].
    intros [x [=]].
Qed.

(** X11. A file block yields a change exactly when its first line has
    the [a/... b/...] form and one of the lines after it is a hunk
    header of the numeric form. *)
Theorem block_yields_change_iff (block header : string) (rest : list string) :
  split LF block = header :: rest ->
  (is_Some (Git.parseFile block) <->
   is_Some (Git.fileMatch header)
   /\ Exists (fun line => Shape.opensHunk line = true) rest).
Proof.
  intros Hsplit. unfold Git.parseFile. rewrite Hsplit.
  destruct (Git.fileMatch header) as [[g1 path] |].
  - pose proof (scanOK_fold rest Git.initScan scanOK_init) as Hok.
    pose proof (pushed_nonempty _ Hok) as Hpushed.
    rewrite (current_iff_opened rest Git.initScan) in Hpushed.
    destruct (Git.hunks (Git.pushCurrent (foldl Git.scanLine Git.initScan rest)))
      as [| r refs].
    + split.
      * intros [x [=]].
      * intros [_ Hex]. exfalso. apply Hpushed; [now right | reflexivity].
    + split; [| eauto]. intros _. split; [eauto |].
      destruct Hpushed as [Hp _].
      destruct (Hp ltac:(discriminate)) as [[x [=]] | Hex]. exact Hex.
  - split; [intros [x [=]] | intros [[x [=]] _]].
Qed.

Lemma block_yields_change_iff_witness :
  split LF Samples.malformedHeader
  = ["diff --git a/f.ts b/f.ts"; "@@ -1,2 +1,2 @@"; "+one";
     "@@ malformed @@"; "+two"]
  /\ is_Some (Git.parseFile Samples.malformedHeader).
Proof.
  split; [reflexivity |].
  apply (block_yields_change_iff Samples.malformedHeader
           "diff --git a/f.ts b/f.ts"
           ["@@ -1,2 +1,2 @@"; "+one"; "@@ malformed @@"; "+two"] eq_refl).
  split; [vm_compute; eauto |]. left. reflexivity.
Defined.




(** ** Blocks with well-formed headers *)

Lemma marked_snoc (class : string -> bool) (lines : list string)
  (line : string) :
  Shape.marked class (lines ++ [line])
  = (Shape.marked class lines
     ++ if class line then [substring 1 line] else [])%list.
Proof.
  unfold Shape.marked. rewrite List.filter_app, map_app. simpl.
  now destruct (class line).
Qed.

Lemma allLines_snoc (heap : list GitHunk) (hk : GitHunk) :
  Shape.allLines (heap ++ [hk]) = (Shape.allLines heap ++ Hunk.lines hk)%list.
Proof.
  unfold Shape.allLines. rewrite map_app, concat_app. simpl.
  now rewrite app_nil_r.
Qed.

Lemma last_ref (refs : list nat) (h n : nat) :
  (refs ++ [h])%list = seq 0 n -> exists n', n = S n' /\ h = n' /\ refs = seq 0 n'.
Proof.
  destruct n as [| n'].
  - intros H. now apply app_eq_nil in H as [_ [=]].
  - rewrite seq_S. simpl. intros H.
    apply app_inj_tail in H as [-> ->]. eauto.
Qed.

Lemma alter_last (f : GitHunk -> GitHunk) (heap : list GitHunk) (n' : nat) :
  length heap = S n' ->
  exists init hk,
    heap = (init ++ [hk])%list
    /\ alter f n' heap = (init ++ [f hk])%list.
Proof.
  intros Hlen.
  destruct (exists_last (l := heap)) as (init & hk & ->).
  { intros ->. discriminate. }
  rewrite length_app in Hlen. simpl in Hlen.
  exists init, hk. split; [reflexivity |].
  replace n' with (length init + 0)%nat by lia.
  now rewrite alter_app_r.
Qed.

Lemma inStep_content (st : Git.Scan) (n : nat) (line : string) :
  Shape.scanOK st -> Shape.inStep st n ->
  startsWith line "@@" = false ->
  Shape.inStep (Git.scanLine st line) n.
Proof.
  intros Hok (Hlen & Hrefs & Hadd & Hdel & Hctx) Hat.
  destruct Hok as (_ & _ & _ & _ & Hnone & Hsome).
  unfold Git.scanLine. rewrite Hat.
  destruct (Git.currentHunk st) as [h |] eqn:Ecur.
  2:{ destruct (Hnone eq_refl) as [_ ->]. unfold Shape.inStep.
      rewrite Ecur. now repeat split. }
  rewrite (Hsome ltac:(eauto)). cbv zeta.
  simpl in Hrefs. destruct (last_ref _ _ _ Hrefs) as (n' & -> & -> & Hhunks).
  destruct (alter_last (Git.pushLine line) _ _ Hlen) as (init & hk & Hheap & Halter).
  assert (Hlines : Shape.allLines (alter (Git.pushLine line) n' (Git.heap st))
                   = (Shape.allLines (Git.heap st) ++ [line])%list).
  { rewrite Halter, Hheap, !allLines_snoc. cbn [Git.pushLine Hunk.lines].
    now rewrite app_assoc. }
  assert (Hstep : forall a d c,
    a = Shape.marked Shape.isAddition
          (Shape.allLines (Git.heap st) ++ [line]) ->
    d = Shape.marked Shape.isDeletion
          (Shape.allLines (Git.heap st) ++ [line]) ->
    c = Shape.marked Shape.isContext
          (Shape.allLines (Git.heap st) ++ [line]) ->
    Shape.inStep
      (Git.mkScan a d c (Git.hunks st)
         (alter (Git.pushLine line) n' (Git.heap st)) (Some n') true) (S n')).
  { intros a d c -> -> ->. unfold Shape.inStep.
    cbn [Git.heap Git.hunks Git.currentHunk Git.additions Git.deletions
         Git.context].
    rewrite length_alter, Hlines.
    split; [exact Hlen |]. split; [exact Hrefs |]. now repeat split. }
  fold (Shape.isAddition line). fold (Shape.isDeletion line).
  fold (Shape.isContext line).
  destruct (Shape.isAddition line) eqn:Ea.
  - apply Hstep; rewrite marked_snoc.
    + now rewrite Ea, Hadd.
    + assert (Shape.isDeletion line = false) as ->.
      { unfold Shape.isAddition in Ea. apply andb_true_iff in Ea as [Ea _].
        unfold Shape.isDeletion.
        now rewrite (startsWith_head line "+" "-" "" Ea). }
      now rewrite Hdel, app_nil_r.
    + assert (Shape.isContext line = false) as ->.
      { unfold Shape.isAddition in Ea. apply andb_true_iff in Ea as [Ea _].
        unfold Shape.isContext.
        now rewrite (startsWith_head line "+" " " "" Ea). }
      now rewrite Hctx, app_nil_r.
  - destruct (Shape.isDeletion line) eqn:Ed.
    + apply Hstep; rewrite marked_snoc.
      * now rewrite Ea, Hadd, app_nil_r.
      * now rewrite Ed, Hdel.
      * assert (Shape.isContext line = false) as ->.
        { unfold Shape.isDeletion in Ed. apply andb_true_iff in Ed as [Ed _].
          unfold Shape.isContext.
          now rewrite (startsWith_head line "-" " " "" Ed). }
        now rewrite Hctx, app_nil_r.
    + destruct (Shape.isContext line) eqn:Ec;
        apply Hstep; rewrite marked_snoc, ?Ea, ?Ed, ?Ec, ?app_nil_r;
        congruence.
Qed.

Lemma inStep_header (st : Git.Scan) (n : nat) (line : string) :
  Shape.inStep st n ->
  startsWith line "@@" = true -> is_Some (Git.hunkMatch line) ->
  Shape.inStep (Git.scanLine st line) (S n).
Proof.
  intros (Hlen & Hrefs & Hadd & Hdel & Hctx) Hat [m Hm].
  unfold Git.scanLine. rewrite Hat, Hm.
  assert (Hpush : Git.hunks (Git.pushCurrent st) = seq 0 n
                  /\ Git.heap (Git.pushCurrent st) = Git.heap st
                  /\ Git.additions (Git.pushCurrent st) = Git.additions st
                  /\ Git.deletions (Git.pushCurrent st) = Git.deletions st
                  /\ Git.context (Git.pushCurrent st) = Git.context st).
  { unfold Git.pushCurrent.
    destruct (Git.currentHunk st) as [h |]; simpl in Hrefs |- *.
    - now repeat split.
    - rewrite app_nil_r in Hrefs. now repeat split. }
  destruct Hpush as (Hh & Hheap & Ha & Hd & Hc).
  unfold Shape.inStep.
  cbn [Git.heap Git.hunks Git.currentHunk Git.additions Git.deletions
       Git.context].
  rewrite Hh, Hheap, Ha, Hd, Hc, length_app, Hlen, allLines_snoc.
  assert (Hunk.lines (Git.newHunk m) = []) as ->.
  { now destruct m as [[[? ?] ?] ?]. }
  rewrite app_nil_r. simpl length.
  split; [lia |]. split; [now rewrite seq_S |]. now repeat split.
Qed.

Lemma inStep_fold (lines : list string) (st : Git.Scan) (n : nat) :
  Shape.wellFormedHeaders lines ->
  Shape.scanOK st -> Shape.inStep st n ->
  Shape.inStep (foldl Git.scanLine st lines)
    (n + length (Shape.headerLines lines)).
Proof.
  intros Hwf. revert st n.
  induction Hwf as [| line lines Hline _ IH]; intros st n Hok Hin.
  - simpl. now rewrite Nat.add_0_r.
  - cbn [foldl]. unfold Shape.headerLines. cbn [List.filter].
    pose proof (scanOK_step st line Hok) as Hok'.
    destruct (startsWith line "@@") eqn:Hat.
    + specialize (IH _ (S n) Hok' (inStep_header st n line Hin Hat (Hline eq_refl))).
      simpl length. now rewrite Nat.add_succ_r.
    + exact (IH _ n Hok' (inStep_content st n line Hok Hin Hat)).
Qed.

Lemma deref_all (heap pre : list GitHunk) :
  Git.deref (pre ++ heap) (seq (length pre) (length heap)) = heap.
Proof.
  revert pre. induction heap as [| hk heap IH]; intros pre; [reflexivity |].
  simpl seq. unfold Git.deref.
  change (omap (fun r => (pre ++ hk :: heap)%list !! r)
            (length pre :: seq (S (length pre)) (length heap)))
    with (match (pre ++ hk :: heap)%list !! length pre with
          | Some y => y :: Git.deref (pre ++ hk :: heap)%list
                             (seq (S (length pre)) (length heap))
          | None => Git.deref (pre ++ hk :: heap)%list
                      (seq (S (length pre)) (length heap))
          end).
  rewrite list_lookup_middle by reflexivity. f_equal.
  specialize (IH (pre ++ [hk])%list).
  rewrite length_app, <- app_assoc in IH. simpl in IH.
  now rewrite Nat.add_1_r in IH.
Qed.

(** X13. In a file block all of whose lines starting with [@@] have the
    numeric form, the change has one hunk for each such line, and its
    additions, deletions and context lines are, in order and without
    their marker, the [+] lines (not [+++]), the [-] lines (not [---])
    and the lines with a leading space of its hunks. *)
Theorem well_formed_block (block header : string) (rest : list string)
  (change : CodeChange) :
  split LF block = header :: rest ->
  Shape.wellFormedHeaders rest ->
  Git.parseFile block = Some change ->
  length (Change.hunks change) = length (Shape.headerLines rest)
  /\ Change.additions change
     = Shape.marked Shape.isAddition (Shape.allLines (Change.hunks change))
  /\ Change.deletions change
     = Shape.marked Shape.isDeletion (Shape.allLines (Change.hunks change))
  /\ Change.context change
     = Shape.marked Shape.isContext (Shape.allLines (Change.hunks change)).
Proof.
  intros Hsplit Hwf. unfold Git.parseFile. rewrite Hsplit.
  destruct (Git.fileMatch header) as [[g1 path] |]; [| discriminate].
  assert (Hinit : Shape.inStep Git.initScan 0).
  { unfold Shape.inStep. now repeat split. }
  pose proof (inStep_fold rest Git.initScan 0 Hwf scanOK_init Hinit)
    as (Hlen & Hrefs & Hadd & Hdel & Hctx).
  simpl in Hlen.
  set (st := foldl Git.scanLine Git.initScan rest) in *.
  assert (Hpush : Git.hunks (Git.pushCurrent st) = seq 0 (length (Git.heap st))
                  /\ Git.heap (Git.pushCurrent st) = Git.heap st
                  /\ Git.additions (Git.pushCurrent st) = Git.additions st
                  /\ Git.deletions (Git.pushCurrent st) = Git.deletions st
                  /\ Git.context (Git.pushCurrent st) = Git.context st).
  { rewrite Hlen. unfold Git.pushCurrent.
    destruct (Git.currentHunk st) as [h |]; simpl in Hrefs |- *.
    - now repeat split.
    - rewrite app_nil_r in Hrefs. now repeat split. }
  destruct Hpush as (Hh & Hheap & Ha & Hd & Hc).
  pose proof (deref_all (Git.heap st) []) as Hall.
  change (Git.deref (Git.heap st) (seq 0 (length (Git.heap st)))
          = Git.heap st) in Hall.
  rewrite Hh, Hheap, Ha, Hd, Hc, Hall.
  destruct (seq 0 (length (Git.heap st))); [discriminate |].
  intros [= <-].
  cbn [Change.hunks Change.additions Change.deletions Change.context].
  now repeat split.
Qed.

Lemma well_formed_block_witness :
  split LF Samples.twoHeaders
  = ["diff --git a/src/app.ts b/src/app.ts"; "index 83db48f..bf269f4 100644";
     "--- a/src/app.ts"; "+++ b/src/app.ts"; "@@ -10,5 +12,7 @@";
     "@@ -1 +1 @@"]
  /\ exists change,
       Git.parseFile Samples.twoHeaders = Some change
       /\ length (Change.hunks change) = 2%nat.
Proof.
  split; [reflexivity |].
  eexists. split; [vm_compute; reflexivity |].
  edestruct (well_formed_block Samples.twoHeaders) as [Hlen _];
    [reflexivity | | vm_compute; reflexivity | rewrite Hlen; reflexivity].
  repeat constructor; intros H; try discriminate H; vm_compute; eauto.
Defined.

(** ** Texts without a file block *)

Lemma splitFiles_single (s : string) (bol : bool) :
  indexOf s "diff --git" = None -> exists piece, Git.splitFiles 0 bol s = [piece].
Proof.
  revert bol. induction s as [| c s IH]; intros bol H; [now exists "" |].
  cbn [indexOf] in H.
  destruct (String.prefix "diff --git" (String c s)) eqn:Hp; [discriminate |].
  destruct (indexOf s "diff --git") eqn:Hi; [discriminate |].
  cbn [Git.splitFiles]. rewrite Hp, andb_false_r.
  destruct (IH (isLineTerminator c) eq_refl) as (piece & ->).
  now exists (String c piece).
Qed.

(** X14. A text in which [diff --git] does not occur, the empty text
    among them, yields no change. *)
Theorem no_block_no_change (diff : string) :
  indexOf diff "diff --git" = None -> Git.parseDiff diff = [].
Proof.
  intros H. unfold Git.parseDiff.
  destruct (splitFiles_single diff true H) as (piece & ->). reflexivity.
Qed.

Lemma no_block_no_change_witness :
  indexOf ("@@ -1 +1 @@" ++ nl ++ "+x") "diff --git" = None
  /\ Git.parseDiff ("@@ -1 +1 @@" ++ nl ++ "+x") = [].
Proof.
  split; [reflexivity |].
  apply (no_block_no_change ("@@ -1 +1 @@" ++ nl ++ "+x")). reflexivity.
Defined.

(** ** The hunk header, written and read *)













(** ** The line scanner *)

Lemma scannerOK_step (st : Provider.Scanner) (n : nat) (line : string) :
  Shape.scannerOK st n ->
  Shape.scannerOK (Provider.scan st line)
    (if startsWith line "File:" then S n else n).
Proof.
  intros (Hall & Hsev & Hlen). unfold Provider.scan.
  destruct (startsWith line "File:") eqn:Hfile.
  - unfold Shape.scannerOK.
    cbn [Provider.comments Provider.currentComment Comment.file].
    destruct (truthy (Comment.file (Provider.currentComment st))) eqn:Hcur.
    + split; [apply Forall_app; split;
               [exact Hall | constructor; [now split | constructor]] |].
      split; [intros s [=] |]. rewrite length_app. simpl length.
      destruct (truthy (Some _)); lia.
    + split; [exact Hall |]. split; [intros s [=] |].
      destruct (truthy (Some _)); lia.
  - assert (Hkeep : forall l m s c g,
      (forall x, s = Some x -> In x Engine.severities) ->
      Shape.scannerOK
        (Provider.mkScanner (Provider.comments st)
           (Comment.mk (Comment.file (Provider.currentComment st)) l m s c g))
        n).
    { intros l m s c g Hs. unfold Shape.scannerOK.
      cbn [Provider.comments Provider.currentComment Comment.file].
      split; [exact Hall |]. split; [exact Hs | exact Hlen]. }
    destruct (startsWith line "Line:"); [apply Hkeep; exact Hsev |].
    destruct (startsWith line "Severity:").
    { apply Hkeep. intros x [= <-].
      set (sev := toLowerCase _).
      destruct (String.eqb sev "info") eqn:E1;
        [apply String.eqb_eq in E1; rewrite E1; simpl; auto |].
      destruct (String.eqb sev "warning") eqn:E2;
        [apply String.eqb_eq in E2; rewrite E2; simpl; auto |].
      destruct (String.eqb sev "error") eqn:E3;
        [apply String.eqb_eq in E3; rewrite E3; simpl; auto |].
      simpl. auto. }
    destruct (startsWith line "Category:"); [apply Hkeep; exact Hsev |].
    destruct (startsWith line "Message:"); [apply Hkeep; exact Hsev |].
    destruct (startsWith line "Suggestion:"); [apply Hkeep; exact Hsev |].
    now repeat split.
Qed.

Lemma scannerOK_fold (lines : list string) (st : Provider.Scanner) (n : nat) :
  Shape.scannerOK st n ->
  Shape.scannerOK (foldl Provider.scan st lines)
    (n + length (List.filter (fun line => startsWith line "File:") lines)).
Proof.
  revert st n. induction lines as [| line lines IH]; intros st n H.
  - simpl. now rewrite Nat.add_0_r.
  - cbn [foldl List.filter]. pose proof (scannerOK_step st n line H) as Hstep.
    destruct (startsWith line "File:").
    + specialize (IH _ _ Hstep). simpl length. now rewrite Nat.add_succ_r.
    + exact (IH _ _ Hstep).
Qed.

(** X16. Every comment the line scanner returns has a non-empty file,
    and its severity, when it has one, is info, warning or error; the
    scanner returns at most one comment for each line that starts with
    [File:], hence none for a response without such a line. *)
Theorem scanner_output (response : string) :
  Forall (fun c => truthy (Comment.file c) = true /\ Shape.severityOK c)
    (Provider.parseTextResponse response)
  /\ (length (Provider.parseTextResponse response)
      <= length (Shape.fileLines response))%nat
  /\ (Shape.fileLines response = [] -> Provider.parseTextResponse response = []).
Proof.
  assert (Hinit : Shape.scannerOK (Provider.mkScanner [] Comment.empty) 0).
  { unfold Shape.scannerOK. simpl. repeat split; [constructor | | lia].
    intros s [=]. }
  pose proof (scannerOK_fold (split LF response) _ 0 Hinit)
    as (Hall & Hsev & Hlen).
  simpl in Hlen. fold (Shape.fileLines response) in Hlen.
  unfold Provider.parseTextResponse.
  set (st := foldl Provider.scan _ _) in *.
  assert (Hout :
    Forall (fun c => truthy (Comment.file c) = true /\ Shape.severityOK c)
      (if truthy (Comment.file (Provider.currentComment st))
          && truthy (Comment.message (Provider.currentComment st))
       then (Provider.comments st ++ [Provider.currentComment st])%list
       else Provider.comments st)
    /\ (length
          (if truthy (Comment.file (Provider.currentComment st))
              && truthy (Comment.message (Provider.currentComment st))
           then (Provider.comments st ++ [Provider.currentComment st])%list
           else Provider.comments st)
        <= length (Shape.fileLines response))%nat).
  { destruct (truthy (Comment.file (Provider.currentComment st))) eqn:Hf;
      [destruct (truthy (Comment.message (Provider.currentComment st))) |];
      simpl andb; cbv iota.
    - split; [apply Forall_app; split;
               [exact Hall | constructor; [now split | constructor]] |].
      rewrite length_app. simpl length. lia.
    - split; [exact Hall | lia].
    - split; [exact Hall | lia]. }
  destruct Hout as [Hshape Hbound].
  split; [exact Hshape |]. split; [exact Hbound |].
  intros Hnone. rewrite Hnone in Hbound. simpl in Hbound.
  match goal with
  | |- ?l = [] => destruct l; [reflexivity | simpl in Hbound; lia]
  end.
Qed.

Lemma scanner_output_witness :
  Shape.fileLines ("Looks good to me." ++ nl ++ "Message: nothing to add") = []
  /\ Provider.parseTextResponse
       ("Looks good to me." ++ nl ++ "Message: nothing to add") = [].
Proof.
  split; [reflexivity |].
  destruct (scanner_output
              ("Looks good to me." ++ nl ++ "Message: nothing to add"))
    as (_ & _ & Hnone).
  exact (Hnone eq_refl).
Defined.

(** ** The fence pattern *)

Lemma prefix_split (p s : string) :
  String.prefix p s = true -> s = p ++ substring (String.length p) s.
Proof.
  revert s. induction p as [| a p IH]; intros s H; [reflexivity |].
  destruct s as [| b s]; [discriminate |].
  change (startsWith (String b s) (String a p) = true) in H.
  rewrite startsWith_cons in H.
  destruct (Ascii.eqb a b) eqn:E; [| discriminate].
  apply Ascii.eqb_eq in E. subst b. simpl. f_equal. now apply IH.
Qed.

Lemma indexOf_split (s p : string) (i : nat) :
  indexOf s p = Some i ->
  s = JS.take i s ++ p ++ substring (i + String.length p) s.
Proof.
  revert i. induction s as [| c s IH]; intros i; cbn [indexOf].
  - destruct (String.prefix p "") eqn:Hp; [| discriminate].
    intros [= <-]. now apply prefix_split.
  - destruct (String.prefix p (String c s)) eqn:Hp.
    + intros [= <-]. now apply prefix_split.
    + destruct (indexOf s p) as [j |]; [| discriminate].
      intros [= <-]. simpl. f_equal. now apply IH.
Qed.

Lemma prefix_take (p s : string) (n : nat) :
  String.prefix p (JS.take n s) = true -> String.prefix p s = true.
Proof.
  revert s n. induction p as [| a p IH]; intros s n H; [apply prefix_nil |].
  destruct n as [| n], s as [| b s]; try discriminate.
  change (startsWith (String b (JS.take n s)) (String a p) = true) in H.
  change (startsWith (String b s) (String a p) = true).
  rewrite startsWith_cons in *.
  destruct (Ascii.eqb a b); [| discriminate]. now apply (IH s n).
Qed.

Lemma indexOf_before (s p : string) (i : nat) :
  p <> "" -> indexOf s p = Some i -> indexOf (JS.take i s) p = None.
Proof.
  intros Hp. revert i. induction s as [| c s IH]; intros i; cbn [indexOf].
  - destruct (String.prefix p ""); [| discriminate]. intros [= <-].
    destruct p; [congruence | reflexivity].
  - destruct (String.prefix p (String c s)) eqn:Hpre.
    + intros [= <-]. destruct p; [congruence | reflexivity].
    + destruct (indexOf s p) as [j |] eqn:Hj; [| discriminate].
      intros [= <-]. cbn [JS.take indexOf].
      destruct (String.prefix p (String c (JS.take j s))) eqn:Ht.
      * apply (prefix_take p (String c s) (S j)) in Ht. congruence.
      * now rewrite (IH j eq_refl).
Qed.

(** X17. What the fence pattern captures is delimited in the response by
    an opening and a closing fence; no opening fence stands before it,
    and the captured text holds no closing fence. *)
Theorem captured_group_is_fenced (response group : string) :
  Provider.jsonMatch response = Some group ->
  exists before after,
    response
    = before ++ Provider.fenceOpen ++ group ++ Provider.fenceClose ++ after
    /\ indexOf before Provider.fenceOpen = None
    /\ indexOf group Provider.fenceClose = None.
Proof.
  unfold Provider.jsonMatch.
  destruct (indexOf response Provider.fenceOpen) as [i |] eqn:Hi;
    [| discriminate].
  cbn [mbind option_bind].
  set (rest := substring (i + String.length Provider.fenceOpen) response).
  destruct (indexOf rest Provider.fenceClose) as [j |] eqn:Hj;
    [| discriminate].
  cbn [mbind option_bind]. intros [= <-].
  exists (JS.take i response),
    (substring (j + String.length Provider.fenceClose) rest).
  split; [| split].
  - rewrite <- (indexOf_split rest _ j Hj).
    exact (indexOf_split response _ i Hi).
  - apply indexOf_before; [discriminate | exact Hi].
  - apply indexOf_before; [discriminate | exact Hj].
Qed.

Lemma captured_group_is_fenced_witness :
  Provider.jsonMatch
    ("Review:" ++ nl ++ Provider.fenceOpen ++ "[]" ++ Provider.fenceClose)
  = Some "[]"
  /\ exists before after,
       "Review:" ++ nl ++ Provider.fenceOpen ++ "[]" ++ Provider.fenceClose
       = before ++ Provider.fenceOpen ++ "[]" ++ Provider.fenceClose ++ after
       /\ indexOf before Provider.fenceOpen = None
       /\ indexOf "[]" Provider.fenceClose = None.
Proof.
  split; [reflexivity |].
  exact (captured_group_is_fenced
           ("Review:" ++ nl ++ Provider.fenceOpen ++ "[]" ++ Provider.fenceClose)
           "[]" eq_refl).
Defined.

(** ** The extension tables *)

Lemma language_of_extension (ext : string) :
  includes Filter.reviewableExtensions ext = true
  <-> orElse (get Filter.languageMap ext) "text" <> "text".
Proof.
  unfold includes, Filter.reviewableExtensions, Filter.languageMap.
  cbn [existsb get].
  repeat match goal with
         | |- context [String.eqb ext ?k] =>
             destruct (String.eqb ext k); [simpl; split; [discriminate | reflexivity] |]
         end.
  simpl. split; [discriminate | congruence].
Qed.

(** X18. The two extension tables of the filter agree: the language tag
    of a path is [text] exactly when its extension is not a reviewable
    one, so every file accepted on its extension has a proper language
    tag. *)
Theorem language_iff_reviewable (extname : string -> string) (path : string) :
  Filter.isReviewableFile extname path = true
  <-> Filter.getLanguage extname path <> "text".
Proof.
  unfold Filter.isReviewableFile, Filter.getLanguage.
  apply language_of_extension.
Qed.

(** ** Comments posted to GitHub *)

Lemma mismatch_prefix (m s y : string) :
  Shape.mismatch m s = true -> String.prefix m (s ++ y) = false.
Proof.
  revert s. induction m as [| a m IH]; intros s H; [discriminate |].
  destruct s as [| b s]; [discriminate |]. simpl in H.
  change (startsWith (String b (s ++ y)) (String a m) = false).
  rewrite startsWith_cons. destruct (Ascii.eqb a b); [| reflexivity].
  now apply IH.
Qed.

Lemma skip_clear (m lit y : string) :
  Shape.clear m lit = true -> indexOf y m = None ->
  indexOf (lit ++ y) m = None.
Proof.
  intros Hc Hy. induction lit as [| c lit IH]; [exact Hy |].
  simpl in Hc. apply andb_true_iff in Hc as [Hm Hc].
  change (String c lit ++ y) with (String c (lit ++ y)). cbn [indexOf].
  pose proof (mismatch_prefix m (String c lit) y Hm) as Hp.
  change (String c lit ++ y) with (String c (lit ++ y)) in Hp.
  now rewrite Hp, (IH Hc).
Qed.

Lemma marker_head :
  exists tail, GitHub.marker = String (ascii_of_nat 240) tail.
Proof. eexists. vm_compute. reflexivity. Qed.

Lemma skip_plain (x y : string) :
  Shape.plain x = true -> indexOf y GitHub.marker = None ->
  indexOf (x ++ y) GitHub.marker = None.
Proof.
  intros Hx Hy. destruct marker_head as (tail & Hm). rewrite Hm in *.
  induction x as [| c x IH]; [exact Hy |].
  simpl in Hx. apply andb_true_iff in Hx as [Hc Hx].
  change (String c x ++ y) with (String c (x ++ y)). cbn [indexOf].
  change (String.prefix (String (ascii_of_nat 240) tail) (String c (x ++ y)))
    with (startsWith (String c (x ++ y)) (String (ascii_of_nat 240) tail)).
  rewrite startsWith_cons, Ascii.eqb_sym.
  apply negb_true_iff in Hc. now rewrite Hc, (IH Hx).
Qed.

(** Gathers the constant pieces in front of the piece [v] of a
    concatenation and steps over them. *)
Ltac pieces_before v t :=
  lazymatch t with
  | (v ++ _)%string => constr:(EmptyString)
  | (?a ++ ?r)%string =>
      let l := pieces_before v r in constr:((a ++ l)%string)
  end.

Ltac pieces_from v t :=
  lazymatch t with
  | (v ++ _)%string => t
  | (_ ++ ?r)%string => pieces_from v r
  end.

Ltac literal_before v :=
  lazymatch goal with
  | |- indexOf ?b _ = None =>
      let l := pieces_before v b in
      let l' := eval vm_compute in l in
      let r := pieces_from v b in
      change b with (l' ++ r)%string;
      apply (skip_clear GitHub.marker l' r); [vm_compute; reflexivity |]
  end.

(** X19. The text that [formatComment] writes for a valid comment never
    contains the marker by which [getExistingReviewComments] recognises
    the comments of the tool (the glyph is followed by two asterisks in
    the one and by a letter in the other), as long as the message and the
    suggestion hold no byte 240, the first byte of the glyph. *)
Theorem own_comments_are_not_recognised (comment : ReviewComment) :
  Engine.isValidComment comment = true ->
  Shape.plain (GitHub.show (Comment.message comment)) = true ->
  Shape.plain (default "" (Comment.suggestion comment)) = true ->
  exists body,
    GitHub.formatComment comment = inr body
    /\ GitHub.isOwnComment body = false.
Proof.
  intros Hvalid Hmsg Hsug.
  destruct (valid_severity comment Hvalid) as (s & Hs & Hsin).
  destruct (valid_category comment Hvalid) as (k & Hk & Hkin).
  unfold GitHub.formatComment. rewrite Hs, Hk. eexists. split; [reflexivity |].
  unfold GitHub.isOwnComment. apply bool_decide_eq_false_2.
  intros [i Hi]. revert Hi.
  match goal with
  | |- indexOf ?b _ = Some _ -> False =>
      assert (Hnone : indexOf b GitHub.marker = None); [| congruence]
  end.
  set (message := GitHub.show (Comment.message comment)) in *.
  set (suggestion := default "" (Comment.suggestion comment)) in *.
  cbn [mbind option_bind].
  assert (Hend : forall lit, Shape.clear GitHub.marker lit = true ->
                   indexOf lit GitHub.marker = None).
  { intros lit Hlit. rewrite <- (skip_clear _ lit "" Hlit eq_refl).
    f_equal. clear. induction lit; simpl; congruence. }
  destruct (severities_cases s Hsin) as [-> | [-> | ->]];
    simpl in Hkin;
    repeat (destruct Hkin as [<- | Hkin]; [| try contradiction]);
    destruct (truthy (Comment.suggestion comment));
    rewrite !append_assoc; clearbody message suggestion;
    repeat first
      [ apply skip_plain; [assumption |]
      | apply Hend; vm_compute; reflexivity
      | literal_before message
      | literal_before suggestion ].
Qed.

(** ** Addresses of repositories and pull requests *)
















Lemma own_comments_are_not_recognised_witness :
  exists body,
    GitHub.formatComment (Samples.comment "error" "security") = inr body
    /\ GitHub.isOwnComment body = false.
Proof.
  apply own_comments_are_not_recognised; reflexivity.
Defined.
